(** * Scheduler and BLE state machines of the miner-safety-gear firmware

  A shallow embedding of [src/scheduler.c]: the pending-event bitmask with
  its priority consumer [getNextEvent], the temperature acquisition state
  machine [temperature_state_machine_bt] and the GATT discovery state
  machine [Discovery_State_Machine].

  Conventions.
  - A [uint32_t] is a [Z] in [0, 2^32); every C conversion that wraps is
    written out with [mod].
  - A [double] is a [spec_float] of the Standard Library with the binary64
    parameters, so the arithmetic of the conversion formula is the IEEE one,
    rounding included.
  - The calls into drivers and into the Bluetooth stack are recorded, in
    order, in a trace; what those calls return is an input of a dispatch. *)

From Stdlib Require Import ZArith List Bool Lia QArith String.
From Stdlib Require Import Floats.SpecFloat.
Import ListNotations.

Local Open Scope Z_scope.

(** ** Machine integers *)

Module CInt.

Definition UINT8_MOD : Z := 2 ^ 8.
Definition UINT16_MOD : Z := 2 ^ 16.
Definition UINT32_MOD : Z := 2 ^ 32.

(** Conversion of an integer value to [uint8_t], [uint16_t], [uint32_t]. *)
Definition to_uint8 (z : Z) : Z := z mod UINT8_MOD.
Definition to_uint16 (z : Z) : Z := z mod UINT16_MOD.
Definition to_uint32 (z : Z) : Z := z mod UINT32_MOD.

Definition is_uint32 (z : Z) : Prop := 0 <= z < UINT32_MOD.

(** [x & (1<<pos)] used as a condition, [x] a [uint32_t]. *)
Definition bit_is_set (x pos : Z) : bool :=
  negb (Z.land x (to_uint32 (Z.shiftl 1 pos)) =? 0).

(** [x |= (1<<pos)]. *)
Definition set_bit (x pos : Z) : Z :=
  Z.lor x (to_uint32 (Z.shiftl 1 pos)).

(** [x &= ~(1<<pos)]: the [int] value [~(1<<pos)] is converted to
    [uint32_t] before the conjunction. *)
Definition clear_bit (x pos : Z) : Z :=
  Z.land x (to_uint32 (Z.lnot (Z.shiftl 1 pos))).

End CInt.

(** ** The event scheduler *)

Module Scheduler.
Import CInt.

Definition LETIMERUF_BIT_POS : Z := 0.
Definition LETIMERCOMP1_BIT_POS : Z := 1.
Definition I2C_TRANSFER_COMPLETE_BIT_POS : Z := 2.

(** Modelled from the spec: the event kinds that [getNextEvent] returns are
    declared in [scheduler.h], which is not among the sources.  The spec
    names three kinds and "a sentinel none value"; the [switch] of
    [getNextEvent] needs its three case labels pairwise distinct, and the
    sentinel is taken distinct from them. *)
Inductive event_t : Type :=
| EVENT_NONE
| EVENT_LETIMER_UF
| EVENT_LETIMER_COMP1
| EVENT_I2C_TRANSFER_COMPLETE.

(** The signals raised towards the Bluetooth stack by the setters. *)
Inductive signal : Type :=
| sl_bt_external_signal (signals : Z).

(** The global [SchedulerEvents] together with the signals raised so far. *)
Record sched : Type := mkSched {
  SchedulerEvents : Z;
  raised : list signal
}.

Definition post (pos : Z) (s : sched) : sched :=
  {| SchedulerEvents := set_bit (SchedulerEvents s) pos;
     raised := raised s ++ [sl_bt_external_signal (Z.shiftl 1 pos)] |}.

Definition schedulerSetEventLETIMER0Comp1 : sched -> sched :=
  post LETIMERCOMP1_BIT_POS.
Definition schedulerSetEventLETIMER0UF : sched -> sched :=
  post LETIMERUF_BIT_POS.
Definition schedulerSetEventI2CTransferDone : sched -> sched :=
  post I2C_TRANSFER_COMPLETE_BIT_POS.

(** [getNextEvent]: the first part chooses [ReturnEvent], the [switch]
    clears the bit of the chosen event.  The function takes the value of
    [SchedulerEvents] and returns the event with the new value. *)
Definition choose_event (events : Z) : event_t :=
  if bit_is_set events I2C_TRANSFER_COMPLETE_BIT_POS
  then EVENT_I2C_TRANSFER_COMPLETE
  else if bit_is_set events LETIMERCOMP1_BIT_POS
  then EVENT_LETIMER_COMP1
  else if bit_is_set events LETIMERUF_BIT_POS
  then EVENT_LETIMER_UF
  else EVENT_NONE.

Definition clear_event (ReturnEvent : event_t) (events : Z) : Z :=
  match ReturnEvent with
  | EVENT_LETIMER_COMP1 => clear_bit events LETIMERCOMP1_BIT_POS
  | EVENT_LETIMER_UF => clear_bit events LETIMERUF_BIT_POS
  | EVENT_I2C_TRANSFER_COMPLETE =>
      clear_bit events I2C_TRANSFER_COMPLETE_BIT_POS
  | EVENT_NONE => events
  end.

Definition getNextEvent (events : Z) : event_t * Z :=
  let ReturnEvent := choose_event events in
  (ReturnEvent, clear_event ReturnEvent events).

(** The bit an event kind is posted on: the position its setter sets and
    the position the [switch] of [getNextEvent] clears. *)
Definition bit_of (e : event_t) : option Z :=
  match e with
  | EVENT_NONE => None
  | EVENT_LETIMER_UF => Some LETIMERUF_BIT_POS
  | EVENT_LETIMER_COMP1 => Some LETIMERCOMP1_BIT_POS
  | EVENT_I2C_TRANSFER_COMPLETE => Some I2C_TRANSFER_COMPLETE_BIT_POS
  end.

(** An event kind is pending in a mask when its bit is set there. *)
Definition pending (events : Z) (e : event_t) : bool :=
  match bit_of e with
  | Some pos => Z.testbit events pos
  | None => false
  end.

(** The priority order as the spec gives it, highest first. *)
Definition spec_priority : list event_t :=
  [EVENT_I2C_TRANSFER_COMPLETE; EVENT_LETIMER_COMP1; EVENT_LETIMER_UF].

(** The spec's "highest-priority currently-pending event, or none". *)
Definition spec_highest_pending (events : Z) : event_t :=
  hd EVENT_NONE (filter (pending events) spec_priority).

End Scheduler.

(** ** What the other files of the firmware provide *)

(** The constants that [gatt_db.h], [i2c.h] and the Bluetooth SDK headers
    declare are not among the sources; a build of the firmware fixes them.
    [double_to_uint32_unrepresentable] is what the build's conversion of a
    [double] to [uint32_t] yields when the truncated value is not a value of
    [uint32_t]: C leaves that conversion undefined, so the model keeps it
    open. *)
Class Platform : Type := {
  gattdb_temperature_measurement : Z;
  SI7021_DEVICE_ADDR : Z;
  SI7021_CMD_MEASURE_TEMP_NO_HOLD : Z;
  SL_STATUS_OK : Z;
  sl_bt_gatt_indication : Z;
  double_to_uint32_unrepresentable : spec_float -> Z
}.

Module Ble.

(** [SL_BT_MSG_ID(evt->header)], as far as the two machines tell the
    identifiers apart. *)
Inductive msg_id : Type :=
| sl_bt_evt_system_external_signal_id
| sl_bt_evt_connection_opened_id
| sl_bt_evt_connection_closed_id
| sl_bt_evt_gatt_procedure_completed_id
| sl_bt_evt_other_id (id : Z).

Definition msg_id_eqb (a b : msg_id) : bool :=
  match a, b with
  | sl_bt_evt_system_external_signal_id, sl_bt_evt_system_external_signal_id
  | sl_bt_evt_connection_opened_id, sl_bt_evt_connection_opened_id
  | sl_bt_evt_connection_closed_id, sl_bt_evt_connection_closed_id
  | sl_bt_evt_gatt_procedure_completed_id,
    sl_bt_evt_gatt_procedure_completed_id => true
  | sl_bt_evt_other_id x, sl_bt_evt_other_id y => x =? y
  | _, _ => false
  end.

(** The message handed to a machine: its header, and the field
    [data.evt_system_external_signal.extsignals] of its payload. *)
Record sl_bt_msg_t : Type := mkMsg {
  header : msg_id;
  extsignals : Z
}.

(** The fields of [ble_data_struct_t] that [scheduler.c] reads or writes. *)
Record ble_data_struct_t : Type := mkBle {
  connection_open : bool;
  ok_to_send_htm_indications : bool;
  indication_in_flight : bool;
  isIndicationOnButton : bool;
  connectionHandle : Z;
  serviceHandle : Z;
  characteristicHandle : Z;
  serviceHandleHTM : Z;
  characteristicHandleHTM : Z;
  serviceHandleButton : Z;
  characteristicHandleButton : Z
}.

Inductive display_row : Type :=
| DISPLAY_ROW_TEMPVALUE
| DISPLAY_ROW_CONNECTION.

(** The calls that leave [scheduler.c], with their arguments.  A buffer
    argument is the list of the bytes it points to, a [sizeof] argument is
    the length of that list. *)
Inductive call : Type :=
| si7021TurnOn
| si7021TurnOff
| timerWaitUs_irq (us : Z)
| I2C_Write_Data_itr (addr cmd : Z)
| I2C_Read_Data_irq (addr : Z)
| NVIC_DisableIRQ_I2C0
| sl_bt_gatt_server_write_attribute_value
    (attribute offset value_len : Z) (value : list Z)
| sl_bt_gatt_server_send_indication
    (connection characteristic value_len : Z) (value : list Z)
| write_queue (charHandle bufLen : Z) (buffer : list Z)
| displayPrintf (row : display_row) (format : string) (args : list Z)
| LOG_ERROR (format : string) (status : Z)
| sl_bt_gatt_discover_primary_services_by_uuid
    (connection : Z) (uuid : list Z)
| sl_bt_gatt_discover_characteristics_by_uuid
    (connection service : Z) (uuid : list Z)
| sl_bt_gatt_set_characteristic_notification
    (connection characteristic flags : Z).

End Ble.

(** ** The conversion of a Si7021 code to a temperature *)

Module Si7021.
Import CInt.

Definition SI7021_POR_TIME_US : Z := 80000.
Definition SI7021_14B_CONVERSION_TIME_US : Z := 10800.

(** binary64 *)
Definition prec : Z := 53.
Definition emax : Z := 1024.

(** An integer read as a [double] (exact for the integers used here). *)
Definition double_of_int (n : Z) : spec_float :=
  binary_normalize prec emax n 0 false.

(** The [double] literals [175.72] and [46.85]: the binary64 values nearest
    to 17572/100 and 4685/100. *)
Definition double_175_72 : spec_float :=
  S754_finite false 6182597863449559 (-45).
Definition double_46_85 : spec_float :=
  S754_finite false 6593551329447117 (-47).

(** [((Si7021_data*175.72)/65536) - 46.85], evaluated in [double]. *)
Definition conversion (Si7021_data : Z) : spec_float :=
  SFsub prec emax
    (SFdiv prec emax
       (SFmul prec emax (double_of_int Si7021_data) double_175_72)
       (double_of_int 65536))
    double_46_85.

(** The value of a finite [double] with its fractional part discarded. *)
Definition truncate (x : spec_float) : option Z :=
  match x with
  | S754_zero _ => Some 0
  | S754_finite s m e =>
      let a := match e with
               | Zneg p => Z.shiftr (Zpos m) (Zpos p)
               | _ => Z.shiftl (Zpos m) e
               end in
      Some (if s then - a else a)
  | S754_infinity _ | S754_nan => None
  end.

Section WithPlatform.
Context {platform : Platform}.

(** The conversion of a [double] to [uint32_t] at an assignment (C11
    6.3.1.4): the fractional part is discarded, so every value above -1 and
    below 2^32 has a result; when what is left is not a value of [uint32_t]
    the behaviour is undefined, and the platform decides. *)
Definition double_to_uint32 (x : spec_float) : Z :=
  match truncate x with
  | Some t =>
      if (0 <=? t) && (t <? UINT32_MOD) then t
      else to_uint32 (double_to_uint32_unrepresentable x)
  | None => to_uint32 (double_to_uint32_unrepresentable x)
  end.

(** [temperature_reading = ((Si7021_data*175.72)/65536) - 46.85;] with
    [temperature_reading] a [uint32_t]. *)
Definition temperature_reading_of (Si7021_data : Z) : Z :=
  double_to_uint32 (conversion Si7021_data).

End WithPlatform.

(** Modelled from the spec: the macros [UINT8_TO_BITSTREAM],
    [UINT32_TO_BITSTREAM] and [INT32_TO_FLOAT] come from a header that is not
    among the sources.  The spec describes the record they build: "byte 0 = a
    fixed flags value; bytes 1-4 = the temperature (scaled x1000, exponent -3)
    in a little-endian 4-byte mantissa-plus-exponent float encoding"; the
    source calls it the IEEE-11073 format, whose 32-bit FLOAT keeps the
    mantissa in the low 24 bits and the exponent in the high 8 bits. *)
Definition INT32_TO_FLOAT (m e : Z) : Z :=
  Z.lor (Z.land (to_uint32 m) 16777215)
        (to_uint32 (Z.shiftl (to_uint32 e) 24)).

(** Modelled from the spec: [UINT8_TO_BITSTREAM(p, n)] stores the byte [n]
    at [p] and moves [p] on; the result is the byte stored. *)
Definition UINT8_TO_BITSTREAM (n : Z) : list Z :=
  [to_uint8 n].

(** Modelled from the spec: [UINT32_TO_BITSTREAM(p, n)] stores the four
    bytes of [n] at [p], lowest first ("little-endian"), and moves [p] on. *)
Definition UINT32_TO_BITSTREAM (n : Z) : list Z :=
  [to_uint8 n; to_uint8 (Z.shiftr n 8);
   to_uint8 (Z.shiftr n 16); to_uint8 (Z.shiftr n 24)].

(** The five bytes that the read-complete branch leaves in
    [htm_temperature_buffer]. *)
Definition encode_reading (flags temperature_reading : Z) : list Z :=
  let htm_temperature_flt :=
    INT32_TO_FLOAT (to_uint32 (temperature_reading * 1000)) (-3) in
  UINT8_TO_BITSTREAM flags ++ UINT32_TO_BITSTREAM htm_temperature_flt.

(** *** The spec's side: the formula over the rationals, and the reading of
    a mantissa-plus-exponent word. *)

(** "raw * 175.72 / 65536 - 46.85" *)
Definition spec_formula (raw : Z) : Q :=
  (inject_Z raw * (17572 # 100) / inject_Z 65536 - (4685 # 100))%Q.

(** A rational with its fractional part discarded (towards zero). *)
Definition Qtruncate (q : Q) : Z :=
  Z.quot (Qnum q) (Zpos (Qden q)).

(** The truncated formula in integers: the numerator of
    [raw * 175.72 / 65536 - 46.85] over the denominator [100 * 65536]. *)
Definition exact_truncate (raw : Z) : Z :=
  Z.quot (raw * 17572 - 4685 * 65536) 6553600.

(** [p] holds at [start], [start + 1], ..., [start + n - 1]. *)
Fixpoint holds_from (p : Z -> bool) (n : nat) (start : Z) : bool :=
  match n with
  | O => true
  | S k => p start && holds_from p k (start + 1)
  end.

(** A [double] with 53 significant bits whose exponent is far from both
    ends of the range, and the same [double] with its exponent lowered by 16
    (what dividing it by 65536 gives). *)
Definition normal53 (x : spec_float) : bool :=
  match x with
  | S754_finite _ m e =>
      (Zpos (digits2_pos m) =? 53) && (-1057 <=? e) && (e <=? 987)
  | _ => false
  end.

Definition lower_exponent16 (x : spec_float) : spec_float :=
  match x with
  | S754_finite s m e => S754_finite s m (e - 16)
  | _ => x
  end.

(** At a raw code: the product [Si7021_data*175.72] is such a [double], and
    the [double] evaluation and the exact formula truncate to the same
    integer. *)
Definition truncations_agree (raw : Z) : bool :=
  let product := SFmul prec emax (double_of_int raw) double_175_72 in
  normal53 product
  && match truncate
             (SFsub prec emax (lower_exponent16 product) double_46_85) with
     | Some t => t =? exact_truncate raw
     | None => false
     end.

(** The little-endian 32-bit word held by four bytes. *)
Definition word_of_bytes (bs : list Z) : Z :=
  match bs with
  | [b0; b1; b2; b3] =>
      b0 + 2 ^ 8 * b1 + 2 ^ 16 * b2 + 2 ^ 24 * b3
  | _ => 0
  end.

(** Mantissa (signed, 24 bits) and exponent (signed, 8 bits) of a word. *)
Definition float_mantissa (w : Z) : Z :=
  let m := w mod 2 ^ 24 in
  if m <? 2 ^ 23 then m else m - 2 ^ 24.

Definition float_exponent (w : Z) : Z :=
  let e := (w / 2 ^ 24) mod 2 ^ 8 in
  if e <? 2 ^ 7 then e else e - 2 ^ 8.

(** The number a mantissa-plus-exponent word stands for:
    mantissa x 10^exponent. *)
Definition float_value (w : Z) : Q :=
  (inject_Z (float_mantissa w) * (10 # 1) ^ float_exponent w)%Q.

(** The word built for a reading decodes to the reading: mantissa
    [1000 * t], exponent [-3], and the four bytes hold the word. *)
Definition encoding_decodes (t : Z) : bool :=
  let w := INT32_TO_FLOAT (to_uint32 (t * 1000)) (-3) in
  (float_mantissa w =? t * 1000)
  && (float_exponent w =? -3)
  && (word_of_bytes (UINT32_TO_BITSTREAM w) =? w).

End Si7021.

(** ** A state monad for the machines

    A dispatch reads and writes the static and global variables of the file
    and the shared BLE data, and leaves calls behind; [M W A] threads the
    world [W] that holds them. *)

Module StateM.

Definition M (W A : Type) : Type := W -> A * W.

Definition ret {W A : Type} (a : A) : M W A := fun w => (a, w).

Definition bind {W A B : Type} (m : M W A) (k : A -> M W B) : M W B :=
  fun w => let (a, w') := m w in k a w'.

Definition gets {W A : Type} (f : W -> A) : M W A := fun w => (f w, w).

Definition modify {W : Type} (f : W -> W) : M W unit := fun w => (tt, f w).

(** [if (c) { body }] *)
Definition when_ {W : Type} (c : bool) (body : M W unit) : M W unit :=
  if c then body else ret tt.

(** The world a computation leaves. *)
Definition exec {W A : Type} (m : M W A) (w : W) : W := snd (m w).

End StateM.

Declare Scope machine_scope.
Delimit Scope machine_scope with machine.
Notation "x <- m ;; k" := (StateM.bind m (fun x => k))
  (at level 61, m at next level, right associativity) : machine_scope.
Notation "m ;; k" := (StateM.bind m (fun _ => k))
  (at level 61, right associativity) : machine_scope.

(** ** The acquisition machine: [temperature_state_machine_bt] *)

Module Acquisition.
Import CInt Scheduler Ble Si7021 StateM.

Inductive State_t : Type :=
| stateIdle
| waitForSi7021POR
| waitForI2CWriteTransfer
| waitForSi7021Conversion
| waitForI2CReadTransfer.

(** What a dispatch touches: the static [nextState], the data behind
    [get_ble_data_ptr()], the globals [htm_temperature_buffer],
    [htm_temperature_flt] and [flags], and the calls made so far. *)
Record world : Type := mkWorld {
  nextState : State_t;
  bleData : ble_data_struct_t;
  htm_temperature_buffer : list Z;
  htm_temperature_flt : Z;
  flags : Z;
  calls : list call
}.

(** What the calls of one dispatch return. *)
Record returns : Type := mkReturns {
  I2C_Get_Data : Z;
  get_queue_depth : Z;
  write_attribute_value_status : Z;
  send_indication_status : Z
}.

Definition set_nextState (s : State_t) : M world unit :=
  modify (fun w => mkWorld s (bleData w) (htm_temperature_buffer w)
                     (htm_temperature_flt w) (flags w) (calls w)).

Definition set_bleData (b : ble_data_struct_t) : M world unit :=
  modify (fun w => mkWorld (nextState w) b (htm_temperature_buffer w)
                     (htm_temperature_flt w) (flags w) (calls w)).

Definition set_htm_temperature (flt : Z) (buffer : list Z) : M world unit :=
  modify (fun w => mkWorld (nextState w) (bleData w) buffer flt
                     (flags w) (calls w)).

Definition do_call (c : call) : M world unit :=
  modify (fun w => mkWorld (nextState w) (bleData w)
                     (htm_temperature_buffer w) (htm_temperature_flt w)
                     (flags w) (calls w ++ [c])).

(** [bleDataPtr->indication_in_flight = true;] *)
Definition mark_indication_in_flight (b : ble_data_struct_t)
  : ble_data_struct_t :=
  mkBle (connection_open b) (ok_to_send_htm_indications b) true
        (isIndicationOnButton b) (connectionHandle b) (serviceHandle b)
        (characteristicHandle b) (serviceHandleHTM b)
        (characteristicHandleHTM b) (serviceHandleButton b)
        (characteristicHandleButton b).

(** The condition of the inner [if] (lines 325-326):
    [!((bleDataPtr->indication_in_flight == false) || (get_queue_depth() > 0))]. *)
Definition send_condition (b : ble_data_struct_t) (r : returns) : bool :=
  negb (negb (indication_in_flight b) || (0 <? get_queue_depth r)).

(** The condition as the spec words it: "no indication is currently in
    flight AND the retry queue is empty". *)
Definition spec_send_condition (b : ble_data_struct_t) (r : returns) : bool :=
  negb (indication_in_flight b) && (get_queue_depth r =? 0).

Section WithPlatform.
Context {platform : Platform}.
Local Open Scope machine_scope.

(** The body of [case waitForI2CReadTransfer] once the transfer-complete
    bit is seen (lines 287-349). *)
Definition read_transfer_complete (r : returns) : M world unit :=
  do_call NVIC_DisableIRQ_I2C0 ;;
  do_call si7021TurnOff ;;
  let Si7021_data := to_uint16 (I2C_Get_Data r) in
  let temperature_reading := temperature_reading_of Si7021_data in
  fl <- gets flags ;;
  set_htm_temperature
    (INT32_TO_FLOAT (to_uint32 (temperature_reading * 1000)) (-3))
    (encode_reading fl temperature_reading) ;;
  buffer <- gets htm_temperature_buffer ;;
  do_call (sl_bt_gatt_server_write_attribute_value
             gattdb_temperature_measurement 0 5 buffer) ;;
  bleDataPtr <- gets bleData ;;
  (if connection_open bleDataPtr && ok_to_send_htm_indications bleDataPtr
   then
     (if send_condition bleDataPtr r
      then
        do_call (sl_bt_gatt_server_send_indication
                   (connectionHandle bleDataPtr)
                   gattdb_temperature_measurement 5 buffer) ;;
        when_ (negb (send_indication_status r =? SL_STATUS_OK))
          (do_call (LOG_ERROR
             "sl_bt_gatt_server_send_indication() returned != 0 status=0x%04x\r\n"
             (send_indication_status r))) ;;
        set_bleData (mark_indication_in_flight bleDataPtr)
      else
        do_call (write_queue gattdb_temperature_measurement 5 buffer)) ;;
     do_call (displayPrintf DISPLAY_ROW_TEMPVALUE "Temp=%d"
                [temperature_reading])
   else
     do_call (displayPrintf DISPLAY_ROW_TEMPVALUE EmptyString [])) ;;
  set_nextState stateIdle.

(** The [switch (currentState)] of the machine. *)
Definition switch_currentState (currentState : State_t)
    (evt : sl_bt_msg_t) (r : returns) : M world unit :=
  match currentState with
  | stateIdle =>
      set_nextState stateIdle ;;
      when_ (bit_is_set (extsignals evt) LETIMERUF_BIT_POS)
        (do_call si7021TurnOn ;;
         do_call (timerWaitUs_irq SI7021_POR_TIME_US) ;;
         set_nextState waitForSi7021POR)
  | waitForSi7021POR =>
      set_nextState waitForSi7021POR ;;
      when_ (bit_is_set (extsignals evt) LETIMERCOMP1_BIT_POS)
        (do_call (I2C_Write_Data_itr SI7021_DEVICE_ADDR
                    SI7021_CMD_MEASURE_TEMP_NO_HOLD) ;;
         set_nextState waitForI2CWriteTransfer)
  | waitForI2CWriteTransfer =>
      set_nextState waitForI2CWriteTransfer ;;
      when_ (bit_is_set (extsignals evt) I2C_TRANSFER_COMPLETE_BIT_POS)
        (do_call NVIC_DisableIRQ_I2C0 ;;
         do_call (timerWaitUs_irq SI7021_14B_CONVERSION_TIME_US) ;;
         set_nextState waitForSi7021Conversion)
  | waitForSi7021Conversion =>
      set_nextState waitForSi7021Conversion ;;
      when_ (bit_is_set (extsignals evt) LETIMERCOMP1_BIT_POS)
        (do_call (I2C_Read_Data_irq SI7021_DEVICE_ADDR) ;;
         set_nextState waitForI2CReadTransfer)
  | waitForI2CReadTransfer =>
      set_nextState waitForI2CReadTransfer ;;
      when_ (bit_is_set (extsignals evt) I2C_TRANSFER_COMPLETE_BIT_POS)
        (read_transfer_complete r)
  end.

(** The three conditions of the outer [if] (lines 227-229). *)
Definition preconditions (evt : sl_bt_msg_t) (b : ble_data_struct_t) : bool :=
  msg_id_eqb (header evt) sl_bt_evt_system_external_signal_id
  && connection_open b
  && ok_to_send_htm_indications b.

Definition temperature_state_machine_bt (evt : sl_bt_msg_t) (r : returns)
  : M world unit :=
  currentState <- gets nextState ;;
  bleDataPtr <- gets bleData ;;
  when_ (preconditions evt bleDataPtr)
    (switch_currentState currentState evt r) ;;
  bleDataPtr <- gets bleData ;;
  when_ (negb (connection_open bleDataPtr)
         || negb (ok_to_send_htm_indications bleDataPtr))
    (do_call (displayPrintf DISPLAY_ROW_TEMPVALUE EmptyString [])).

(** One dispatch, as a function on worlds. *)
Definition dispatch (w : world) (evt : sl_bt_msg_t) (r : returns) : world :=
  exec (temperature_state_machine_bt evt r) w.

(** The calls a dispatch adds to the trace. *)
Definition new_calls (w w' : world) : list call :=
  skipn (List.length (calls w)) (calls w').

(** The main loop feeding events one after the other; the result lists the
    state held after each dispatch, then the last world. *)
Fixpoint run (w : world) (inputs : list (sl_bt_msg_t * returns))
  : list State_t * world :=
  match inputs with
  | [] => ([], w)
  | (evt, r) :: rest =>
      let w' := dispatch w evt r in
      let (visited, w_end) := run w' rest in
      (nextState w' :: visited, w_end)
  end.

End WithPlatform.

(** An external-signal event carrying the given signals. *)
Definition external_signal (signals : Z) : sl_bt_msg_t :=
  mkMsg sl_bt_evt_system_external_signal_id signals.

(** The trigger the spec's table lists for each state, as a bit position,
    and the state it leads to. *)
Definition spec_trigger (s : State_t) : Z :=
  match s with
  | stateIdle => LETIMERUF_BIT_POS
  | waitForSi7021POR => LETIMERCOMP1_BIT_POS
  | waitForI2CWriteTransfer => I2C_TRANSFER_COMPLETE_BIT_POS
  | waitForSi7021Conversion => LETIMERCOMP1_BIT_POS
  | waitForI2CReadTransfer => I2C_TRANSFER_COMPLETE_BIT_POS
  end.

Definition spec_next (s : State_t) : State_t :=
  match s with
  | stateIdle => waitForSi7021POR
  | waitForSi7021POR => waitForI2CWriteTransfer
  | waitForI2CWriteTransfer => waitForSi7021Conversion
  | waitForSi7021Conversion => waitForI2CReadTransfer
  | waitForI2CReadTransfer => stateIdle
  end.

(** The spec's trigger sequence "[underflow, compare-match, bus-complete,
    compare-match, bus-complete]", each trigger as the signal its setter
    raises, and the states the spec expects it to visit from Idle. *)
Definition spec_trigger_sequence : list Z :=
  [Z.shiftl 1 LETIMERUF_BIT_POS;
   Z.shiftl 1 LETIMERCOMP1_BIT_POS;
   Z.shiftl 1 I2C_TRANSFER_COMPLETE_BIT_POS;
   Z.shiftl 1 LETIMERCOMP1_BIT_POS;
   Z.shiftl 1 I2C_TRANSFER_COMPLETE_BIT_POS].

Definition spec_cycle : list State_t :=
  [waitForSi7021POR; waitForI2CWriteTransfer; waitForSi7021Conversion;
   waitForI2CReadTransfer; stateIdle].

End Acquisition.

(** ** The discovery machine: [Discovery_State_Machine] *)

Module Discovery.
Import Ble StateM.

Inductive Discovery_States_t : Type :=
| State_1
| State_2
| State_3
| State_4
| State_5
| State_6
| State_7.

(** Health Thermometer service and Temperature Measurement characteristic. *)
Definition thermo_service : list Z := [9; 24].
Definition thermo_char : list Z := [28; 42].

(** The custom button service 00000001-38c8-433e-87ec-652a2d136289 and its
    characteristic 00000002-38c8-433e-87ec-652a2d136289. *)
Definition button_service : list Z :=
  [137; 98; 19; 45; 42; 101; 236; 135; 62; 67; 200; 56; 1; 0; 0; 0].
Definition button_char : list Z :=
  [137; 98; 19; 45; 42; 101; 236; 135; 62; 67; 200; 56; 2; 0; 0; 0].

(** The static [nextState], the BLE data, and the calls made so far. *)
Record world : Type := mkWorld {
  nextState : Discovery_States_t;
  bleData : ble_data_struct_t;
  calls : list call
}.

Definition set_nextState (s : Discovery_States_t) : M world unit :=
  modify (fun w => mkWorld s (bleData w) (calls w)).

Definition set_bleData (b : ble_data_struct_t) : M world unit :=
  modify (fun w => mkWorld (nextState w) b (calls w)).

Definition do_call (c : call) : M world unit :=
  modify (fun w => mkWorld (nextState w) (bleData w) (calls w ++ [c])).

(** The four assignments to fields of the BLE data, and the flag. *)
Definition save_serviceHandleHTM (b : ble_data_struct_t) : ble_data_struct_t :=
  mkBle (connection_open b) (ok_to_send_htm_indications b)
        (indication_in_flight b) (isIndicationOnButton b)
        (connectionHandle b) (serviceHandle b) (characteristicHandle b)
        (serviceHandle b) (characteristicHandleHTM b)
        (serviceHandleButton b) (characteristicHandleButton b).

Definition save_characteristicHandleHTM (b : ble_data_struct_t)
  : ble_data_struct_t :=
  mkBle (connection_open b) (ok_to_send_htm_indications b)
        (indication_in_flight b) (isIndicationOnButton b)
        (connectionHandle b) (serviceHandle b) (characteristicHandle b)
        (serviceHandleHTM b) (characteristicHandle b)
        (serviceHandleButton b) (characteristicHandleButton b).

Definition save_serviceHandleButton (b : ble_data_struct_t)
  : ble_data_struct_t :=
  mkBle (connection_open b) (ok_to_send_htm_indications b)
        (indication_in_flight b) (isIndicationOnButton b)
        (connectionHandle b) (serviceHandle b) (characteristicHandle b)
        (serviceHandleHTM b) (characteristicHandleHTM b)
        (serviceHandle b) (characteristicHandleButton b).

Definition save_characteristicHandleButton (b : ble_data_struct_t)
  : ble_data_struct_t :=
  mkBle (connection_open b) (ok_to_send_htm_indications b)
        (indication_in_flight b) (isIndicationOnButton b)
        (connectionHandle b) (serviceHandle b) (characteristicHandle b)
        (serviceHandleHTM b) (characteristicHandleHTM b)
        (serviceHandleButton b) (characteristicHandle b).

Definition mark_isIndicationOnButton (b : ble_data_struct_t)
  : ble_data_struct_t :=
  mkBle (connection_open b) (ok_to_send_htm_indications b)
        (indication_in_flight b) true
        (connectionHandle b) (serviceHandle b) (characteristicHandle b)
        (serviceHandleHTM b) (characteristicHandleHTM b)
        (serviceHandleButton b) (characteristicHandleButton b).

Section WithPlatform.
Context {platform : Platform}.
Local Open Scope machine_scope.

(** [if (sc != SL_STATUS_OK) { LOG_ERROR(format, sc); }] *)
Definition log_if_failed (format : string) (sc : Z) : M world unit :=
  when_ (negb (sc =? SL_STATUS_OK)) (do_call (LOG_ERROR format sc)).

(** [sc] is the status that the one API call of the dispatch returns. *)
Definition Discovery_State_Machine (evt : sl_bt_msg_t) (sc : Z)
  : M world unit :=
  currentState <- gets nextState ;;
  bleDataPtr <- gets bleData ;;
  match currentState with
  | State_1 =>
      set_nextState State_1 ;;
      when_ (msg_id_eqb (header evt) sl_bt_evt_connection_opened_id)
        (do_call (sl_bt_gatt_discover_primary_services_by_uuid
                    (connectionHandle bleDataPtr) thermo_service) ;;
         log_if_failed
           "sl_bt_gatt_discover_primary_services_by_uuid() returned != 0 status=0x%04x\r\n"
           sc ;;
         set_nextState State_2)
  | State_2 =>
      set_nextState State_2 ;;
      when_ (msg_id_eqb (header evt) sl_bt_evt_gatt_procedure_completed_id)
        (set_bleData (save_serviceHandleHTM bleDataPtr) ;;
         bleDataPtr <- gets bleData ;;
         do_call (sl_bt_gatt_discover_characteristics_by_uuid
                    (connectionHandle bleDataPtr)
                    (serviceHandleHTM bleDataPtr) thermo_char) ;;
         log_if_failed
           "sl_bt_gatt_discover_characteristics_by_uuid() returned != 0 status=0x%04x\r\n"
           sc ;;
         set_nextState State_3)
  | State_3 =>
      set_nextState State_3 ;;
      when_ (msg_id_eqb (header evt) sl_bt_evt_gatt_procedure_completed_id)
        (set_bleData (save_characteristicHandleHTM bleDataPtr) ;;
         bleDataPtr <- gets bleData ;;
         do_call (sl_bt_gatt_set_characteristic_notification
                    (connectionHandle bleDataPtr)
                    (characteristicHandleHTM bleDataPtr)
                    sl_bt_gatt_indication) ;;
         log_if_failed
           "sl_bt_gatt_set_characteristic_notification() returned != 0 status=0x%04x\r\n"
           sc ;;
         set_nextState State_4)
  | State_4 =>
      set_nextState State_4 ;;
      when_ (msg_id_eqb (header evt) sl_bt_evt_gatt_procedure_completed_id)
        (do_call (displayPrintf DISPLAY_ROW_CONNECTION
                    "Handling Indications" []) ;;
         do_call (sl_bt_gatt_discover_primary_services_by_uuid
                    (connectionHandle bleDataPtr) button_service) ;;
         log_if_failed
           "sl_bt_gatt_discover_primary_services_by_uuid() returned != 0 status=0x%04x\r\n"
           sc ;;
         set_nextState State_5)
  | State_5 =>
      set_nextState State_5 ;;
      when_ (msg_id_eqb (header evt) sl_bt_evt_gatt_procedure_completed_id)
        (set_bleData (save_serviceHandleButton bleDataPtr) ;;
         bleDataPtr <- gets bleData ;;
         do_call (sl_bt_gatt_discover_characteristics_by_uuid
                    (connectionHandle bleDataPtr)
                    (serviceHandleButton bleDataPtr) button_char) ;;
         log_if_failed
           "sl_bt_gatt_discover_characteristics_by_uuid() returned != 0 status=0x%04x\r\n"
           sc ;;
         set_nextState State_6)
  | State_6 =>
      set_nextState State_6 ;;
      when_ (msg_id_eqb (header evt) sl_bt_evt_gatt_procedure_completed_id)
        (set_bleData (save_characteristicHandleButton bleDataPtr) ;;
         bleDataPtr <- gets bleData ;;
         do_call (sl_bt_gatt_set_characteristic_notification
                    (connectionHandle bleDataPtr)
                    (characteristicHandleButton bleDataPtr)
                    sl_bt_gatt_indication) ;;
         log_if_failed
           "sl_bt_gatt_set_characteristic_notification() returned != 0 status=0x%04x\r\n"
           sc ;;
         bleDataPtr <- gets bleData ;;
         set_bleData (mark_isIndicationOnButton bleDataPtr) ;;
         set_nextState State_7)
  | State_7 =>
      set_nextState State_7 ;;
      when_ (msg_id_eqb (header evt) sl_bt_evt_connection_closed_id)
        (set_nextState State_1)
  end.

(** One dispatch, as a function on worlds. *)
Definition dispatch (w : world) (evt : sl_bt_msg_t) (sc : Z) : world :=
  exec (Discovery_State_Machine evt sc) w.

(** The main loop feeding events one after the other; the result lists the
    state held after each dispatch, then the last world. *)
Fixpoint run (w : world) (inputs : list (sl_bt_msg_t * Z))
  : list Discovery_States_t * world :=
  match inputs with
  | [] => ([], w)
  | (evt, sc) :: rest =>
      let w' := dispatch w evt sc in
      let (visited, w_end) := run w' rest in
      (nextState w' :: visited, w_end)
  end.

End WithPlatform.

(** The spec's table: the event each state waits for, and the state that
    follows. *)
Definition spec_trigger (s : Discovery_States_t) : msg_id :=
  match s with
  | State_1 => sl_bt_evt_connection_opened_id
  | State_7 => sl_bt_evt_connection_closed_id
  | _ => sl_bt_evt_gatt_procedure_completed_id
  end.

Definition spec_next (s : Discovery_States_t) : Discovery_States_t :=
  match s with
  | State_1 => State_2
  | State_2 => State_3
  | State_3 => State_4
  | State_4 => State_5
  | State_5 => State_6
  | State_6 => State_7
  | State_7 => State_1
  end.

(** The table as a function on states, and the states that a list of
    event identifiers leads through. *)
Definition spec_step (s : Discovery_States_t) (id : msg_id)
  : Discovery_States_t :=
  if msg_id_eqb id (spec_trigger s) then spec_next s else s.

Fixpoint spec_states (s : Discovery_States_t) (ids : list msg_id)
  : list Discovery_States_t :=
  match ids with
  | [] => []
  | id :: rest => spec_step s id :: spec_states (spec_step s id) rest
  end.

(** The number the spec gives to a state. *)
Definition state_number (s : Discovery_States_t) : Z :=
  match s with
  | State_1 => 1
  | State_2 => 2
  | State_3 => 3
  | State_4 => 4
  | State_5 => 5
  | State_6 => 6
  | State_7 => 7
  end.

(** The states in which a discovery is under way. *)
Definition mid_discovery : list Discovery_States_t :=
  [State_2; State_3; State_4; State_5; State_6].

End Discovery.

(** ** A sample platform

    Sample values for the constants: the Si7021 address and command of its
    data sheet, status 0 for success, some attribute handle, and a conversion
    that wraps modulo 2^32 where C leaves it undefined.  The theorems below
    hold for every platform; this one gives the concrete runs. *)

Definition wrapping_conversion (x : spec_float) : Z :=
  match Si7021.truncate x with
  | Some t => CInt.to_uint32 t
  | None => 0
  end.

Definition sample_platform : Platform := {|
  gattdb_temperature_measurement := 21;
  SI7021_DEVICE_ADDR := 64;
  SI7021_CMD_MEASURE_TEMP_NO_HOLD := 243;
  SL_STATUS_OK := 0;
  sl_bt_gatt_indication := 2;
  double_to_uint32_unrepresentable := wrapping_conversion
|}.

Definition sample_ble (open armed in_flight : bool) : Ble.ble_data_struct_t :=
  Ble.mkBle open armed in_flight false 1 0 0 0 0 0 0.

Definition sample_world (s : Acquisition.State_t) (b : Ble.ble_data_struct_t)
  : Acquisition.world :=
  Acquisition.mkWorld s b [0; 0; 0; 0; 0] 0 0 [].

Definition sample_returns (data depth : Z) : Acquisition.returns :=
  Acquisition.mkReturns data depth 0 0.

(** ** Observations on masks, traces and runs

    What the properties of the last part speak of: the three setters by the
    kind they post, a consumer held on the scheduler record, and what a trace
    of calls says about the sensor and about publications. *)

Module Observe.
Import CInt Scheduler Ble Si7021 Acquisition.

(** The setter that posts an event kind ([schedulerSetEventLETIMER0UF],
    [schedulerSetEventLETIMER0Comp1], [schedulerSetEventI2CTransferDone]). *)
Definition setter_of (e : event_t) : sched -> sched :=
  match e with
  | EVENT_LETIMER_UF => schedulerSetEventLETIMER0UF
  | EVENT_LETIMER_COMP1 => schedulerSetEventLETIMER0Comp1
  | EVENT_I2C_TRANSFER_COMPLETE => schedulerSetEventI2CTransferDone
  | EVENT_NONE => fun s => s
  end.

(** [getNextEvent] on the scheduler record: the global [SchedulerEvents] is
    replaced, nothing is signalled. *)
Definition consume (s : sched) : event_t * sched :=
  let (e, events) := getNextEvent (SchedulerEvents s) in
  (e, mkSched events (raised s)).

(** [n] consecutive calls of [getNextEvent]: the events returned, in order,
    and the mask left. *)
Fixpoint consume_n (n : nat) (events : Z) : list event_t * Z :=
  match n with
  | O => ([], events)
  | S k =>
      let (e, events') := getNextEvent events in
      let (es, events'') := consume_n k events' in
      (e :: es, events'')
  end.

Definition is_LOG_ERROR (c : call) : bool :=
  match c with
  | LOG_ERROR _ _ => true
  | _ => false
  end.

Definition is_send_indication (c : call) : bool :=
  match c with
  | sl_bt_gatt_server_send_indication _ _ _ _ => true
  | _ => false
  end.

Definition is_write_queue (c : call) : bool :=
  match c with
  | write_queue _ _ _ => true
  | _ => false
  end.

Definition is_attribute_write (c : call) : bool :=
  match c with
  | sl_bt_gatt_server_write_attribute_value _ _ _ _ => true
  | _ => false
  end.

(** A call that hands a reading to the Bluetooth side. *)
Definition is_publication (c : call) : bool :=
  is_attribute_write c || is_send_indication c || is_write_queue c.

(** Whether the sensor is powered after the calls of a trace, given whether
    it was before: the last [si7021TurnOn] or [si7021TurnOff] decides. *)
Definition sensor_after (powered : bool) (cs : list call) : bool :=
  fold_left (fun on c =>
               match c with
               | si7021TurnOn => true
               | si7021TurnOff => false
               | _ => on
               end) cs powered.

Definition is_idle (s : State_t) : bool :=
  match s with
  | stateIdle => true
  | _ => false
  end.

(** The dispatches a state is away from the end of the read-complete
    transition, where a reading is published. *)
Definition steps_to_publish (s : State_t) : nat :=
  match s with
  | stateIdle => 5
  | waitForSi7021POR => 4
  | waitForI2CWriteTransfer => 3
  | waitForSi7021Conversion => 2
  | waitForI2CReadTransfer => 1
  end.

(** The returns of a dispatch with the two status codes replaced. *)
Definition with_statuses (r : returns) (write_sc send_sc : Z) : returns :=
  mkReturns (I2C_Get_Data r) (get_queue_depth r) write_sc send_sc.

Section WithPlatform.
Context {platform : Platform}.

(** The calls of the four transitions before the read-complete one, as the
    [case]s of the [switch] make them (lines 238-239, 251, 262-263, 275). *)
Definition transition_calls (s : State_t) : list call :=
  match s with
  | stateIdle => [si7021TurnOn; timerWaitUs_irq SI7021_POR_TIME_US]
  | waitForSi7021POR =>
      [I2C_Write_Data_itr SI7021_DEVICE_ADDR SI7021_CMD_MEASURE_TEMP_NO_HOLD]
  | waitForI2CWriteTransfer =>
      [NVIC_DisableIRQ_I2C0; timerWaitUs_irq SI7021_14B_CONVERSION_TIME_US]
  | waitForSi7021Conversion => [I2C_Read_Data_irq SI7021_DEVICE_ADDR]
  | waitForI2CReadTransfer => []
  end.

End WithPlatform.

End Observe.

Module ObserveDiscovery.
Import Ble Discovery.

Definition is_procedure_completed (i : sl_bt_msg_t * Z) : bool :=
  msg_id_eqb (header (fst i)) sl_bt_evt_gatt_procedure_completed_id.

(** The state [n] steps of the table further on. *)
Fixpoint advance (n : nat) (s : Discovery_States_t) : Discovery_States_t :=
  match n with
  | O => s
  | S k => advance k (spec_next s)
  end.

(** The calls a dispatch adds to the trace. *)
Definition new_calls (w w' : world) : list call :=
  skipn (List.length (calls w)) (calls w').

(** The fields of the BLE data that belong to the connection and to the
    stack: the discovery machine reads them and never writes them. *)
Definition stack_fields (b : ble_data_struct_t)
  : bool * bool * bool * Z * Z * Z :=
  (connection_open b, ok_to_send_htm_indications b, indication_in_flight b,
   connectionHandle b, serviceHandle b, characteristicHandle b).

Definition completed_count (inputs : list (sl_bt_msg_t * Z)) : nat :=
  List.length (filter is_procedure_completed inputs).

(** The steps from a state to state 7. *)
Definition steps_to_idle (s : Discovery_States_t) : nat :=
  match s with
  | State_1 => 6
  | State_2 => 5
  | State_3 => 4
  | State_4 => 3
  | State_5 => 2
  | State_6 => 1
  | State_7 => 0
  end.

End ObserveDiscovery.

Module ObservePublication.
Import Ble.


End ObservePublication.

(** * Properties *)

(** ** Bits of a [uint32_t] *)

Section Bits.
Import CInt.

Lemma uint32_testbit_high (x i : Z) :
  is_uint32 x -> 32 <= i -> Z.testbit x i = false.
Proof.
  intros Hx Hi.
  rewrite <- (Z.mod_small x (2 ^ 32)) by exact Hx.
  apply Z.mod_pow2_bits_high; lia.
Qed.

Lemma one_shifted (pos : Z) :
  0 <= pos < 32 -> to_uint32 (Z.shiftl 1 pos) = 2 ^ pos.
Proof.
  intros Hpos. unfold to_uint32, UINT32_MOD.
  rewrite Z.shiftl_1_l. apply Z.mod_small. split.
  - apply Z.pow_nonneg; lia.
  - apply Z.pow_lt_mono_r; lia.
Qed.

Lemma bit_is_set_testbit (x pos : Z) :
  0 <= pos < 32 -> bit_is_set x pos = Z.testbit x pos.
Proof.
  intros Hpos. unfold bit_is_set. rewrite one_shifted by exact Hpos.
  destruct (Z.testbit x pos) eqn:Hbit.
  - apply negb_true_iff, Z.eqb_neq. intros Hzero.
    assert (Hand : Z.testbit (Z.land x (2 ^ pos)) pos = true).
    { rewrite Z.land_spec, Hbit, Z.pow2_bits_true by lia. reflexivity. }
    rewrite Hzero, Z.bits_0 in Hand. discriminate.
  - apply negb_false_iff, Z.eqb_eq, Z.bits_inj'. intros n Hn.
    rewrite Z.land_spec, Z.bits_0, Z.pow2_bits_eqb by lia.
    destruct (Z.eqb_spec pos n) as [->|_].
    + rewrite Hbit. reflexivity.
    + apply andb_false_r.
Qed.

Lemma clear_bit_testbit (x pos i : Z) :
  is_uint32 x -> 0 <= pos < 32 ->
  Z.testbit (clear_bit x pos) i = Z.testbit x i && negb (i =? pos).
Proof.
  intros Hx Hpos. unfold clear_bit, to_uint32, UINT32_MOD.
  rewrite Z.land_spec.
  destruct (Z.ltb_spec i 0) as [Hneg|Hnonneg].
  - rewrite (Z.testbit_neg_r x) by exact Hneg. reflexivity.
  - destruct (Z.ltb_spec i 32) as [Hlow|Hhigh].
    + rewrite Z.mod_pow2_bits_low by lia.
      rewrite Z.lnot_spec, Z.shiftl_1_l, Z.pow2_bits_eqb by lia.
      rewrite (Z.eqb_sym pos i). reflexivity.
    + rewrite (uint32_testbit_high x i) by assumption. reflexivity.
Qed.

Lemma is_uint32_of_bits (x : Z) :
  0 <= x -> (forall i, 32 <= i -> Z.testbit x i = false) -> is_uint32 x.
Proof.
  intros Hx Hbits.
  assert (Hmod : x mod 2 ^ 32 = x).
  { apply Z.bits_inj'. intros n Hn.
    destruct (Z.ltb_spec n 32) as [Hlow|Hhigh].
    - apply Z.mod_pow2_bits_low. exact Hlow.
    - rewrite Z.mod_pow2_bits_high by lia. symmetry. apply Hbits. exact Hhigh. }
  unfold is_uint32, UINT32_MOD. rewrite <- Hmod.
  apply Z.mod_pos_bound. lia.
Qed.

Lemma clear_bit_is_uint32 (x pos : Z) :
  is_uint32 x -> 0 <= pos < 32 -> is_uint32 (clear_bit x pos).
Proof.
  intros Hx Hpos. apply is_uint32_of_bits.
  - unfold clear_bit. apply Z.land_nonneg. left. apply Hx.
  - intros i Hi. rewrite clear_bit_testbit by assumption.
    rewrite (uint32_testbit_high x i) by assumption. reflexivity.
Qed.

End Bits.

(** ** The scheduler *)

Section SchedulerFacts.
Import CInt Scheduler.

(** Posting sets the bit of the event and keeps the others; posting the
    same event twice leaves the mask of posting it once. *)
Lemma post_testbit (pos i : Z) (s : sched) :
  0 <= pos < 32 -> 0 <= i ->
  Z.testbit (SchedulerEvents (post pos s)) i =
  Z.testbit (SchedulerEvents s) i || (i =? pos).
Proof.
  intros Hpos Hi. cbn [post SchedulerEvents]. unfold set_bit.
  rewrite one_shifted by exact Hpos.
  rewrite Z.lor_spec, Z.pow2_bits_eqb by lia.
  rewrite (Z.eqb_sym pos i). reflexivity.
Qed.

Lemma post_twice (pos : Z) (s : sched) :
  SchedulerEvents (post pos (post pos s)) = SchedulerEvents (post pos s).
Proof.
  cbn [post SchedulerEvents]. unfold set_bit.
  rewrite <- Z.lor_assoc, Z.lor_diag. reflexivity.
Qed.

Lemma choose_event_bits (events : Z) :
  choose_event events =
  if Z.testbit events 2 then EVENT_I2C_TRANSFER_COMPLETE
  else if Z.testbit events 1 then EVENT_LETIMER_COMP1
  else if Z.testbit events 0 then EVENT_LETIMER_UF
  else EVENT_NONE.
Proof.
  unfold choose_event, I2C_TRANSFER_COMPLETE_BIT_POS, LETIMERCOMP1_BIT_POS,
    LETIMERUF_BIT_POS.
  rewrite !bit_is_set_testbit by lia. reflexivity.
Qed.

(** The mask after the [switch]: the bit of the chosen event is off, every
    other bit is as it was. *)
Lemma clear_event_testbit (e : event_t) (events i : Z) :
  is_uint32 events ->
  Z.testbit (clear_event e events) i =
  match bit_of e with
  | Some pos => if i =? pos then false else Z.testbit events i
  | None => Z.testbit events i
  end.
Proof.
  intros Hev.
  destruct e; cbn [clear_event bit_of]; try reflexivity;
    (rewrite clear_bit_testbit;
     [ destruct (i =? _); [apply andb_false_r | apply andb_true_r]
     | exact Hev
     | unfold LETIMERUF_BIT_POS, LETIMERCOMP1_BIT_POS,
         I2C_TRANSFER_COMPLETE_BIT_POS; lia ]).
Qed.

Lemma clear_event_is_uint32 (e : event_t) (events : Z) :
  is_uint32 events -> is_uint32 (clear_event e events).
Proof.
  intros Hev.
  destruct e; cbn [clear_event]; try exact Hev;
    (apply clear_bit_is_uint32;
     [ exact Hev
     | unfold LETIMERUF_BIT_POS, LETIMERCOMP1_BIT_POS,
         I2C_TRANSFER_COMPLETE_BIT_POS; lia ]).
Qed.

Lemma spec_highest_pending_bits (events : Z) :
  spec_highest_pending events =
  if Z.testbit events 2 then EVENT_I2C_TRANSFER_COMPLETE
  else if Z.testbit events 1 then EVENT_LETIMER_COMP1
  else if Z.testbit events 0 then EVENT_LETIMER_UF
  else EVENT_NONE.
Proof.
  unfold spec_highest_pending, spec_priority, pending. cbn [filter bit_of].
  unfold LETIMERUF_BIT_POS, LETIMERCOMP1_BIT_POS,
    I2C_TRANSFER_COMPLETE_BIT_POS.
  destruct (Z.testbit events 2), (Z.testbit events 1), (Z.testbit events 0);
    reflexivity.
Qed.

(** C4.  For every value of the pending-event mask, [getNextEvent] returns
    the highest-priority pending kind in the order bus-transfer-complete,
    timer-compare-match, timer-underflow, and the sentinel exactly when none
    of the three is pending; the mask it leaves is a [uint32_t] in which the
    bit of the returned kind is off and every other bit is as before (no bit
    changes when the sentinel is returned). *)
Theorem getNextEvent_returns_highest_priority_and_clears_it :
  forall events : Z,
    is_uint32 events ->
    let ReturnEvent := fst (getNextEvent events) in
    let events' := snd (getNextEvent events) in
    ReturnEvent = spec_highest_pending events
    /\ (ReturnEvent = EVENT_NONE <->
        forall e, In e spec_priority -> pending events e = false)
    /\ is_uint32 events'
    /\ forall i : Z,
         Z.testbit events' i =
         match bit_of ReturnEvent with
         | Some pos => if i =? pos then false else Z.testbit events i
         | None => Z.testbit events i
         end.
Proof.
  intros events Hev. cbn [getNextEvent fst snd].
  split; [| split; [| split]].
  - rewrite choose_event_bits, spec_highest_pending_bits. reflexivity.
  - rewrite choose_event_bits. unfold spec_priority, pending. split.
    + intros Hnone e He.
      destruct (Z.testbit events 2) eqn:H2; [discriminate|].
      destruct (Z.testbit events 1) eqn:H1; [discriminate|].
      destruct (Z.testbit events 0) eqn:H0; [discriminate|].
      cbn [In] in He. destruct He as [<-|[<-|[<-|[]]]]; cbn [bit_of];
        assumption.
    + intros Hall.
      pose proof (Hall EVENT_I2C_TRANSFER_COMPLETE) as H2.
      pose proof (Hall EVENT_LETIMER_COMP1) as H1.
      pose proof (Hall EVENT_LETIMER_UF) as H0.
      cbn [bit_of In] in H2, H1, H0.
      unfold LETIMERUF_BIT_POS, LETIMERCOMP1_BIT_POS,
        I2C_TRANSFER_COMPLETE_BIT_POS in H2, H1, H0.
      rewrite H2, H1, H0 by tauto. reflexivity.
  - apply clear_event_is_uint32. exact Hev.
  - intros i. apply clear_event_testbit. exact Hev.
Qed.

(** The theorem at the mask 0b110: both the bus and the compare-match events
    are pending. *)
Lemma getNextEvent_returns_highest_priority_witness :
  is_uint32 6
  /\ fst (getNextEvent 6) = spec_highest_pending 6
  /\ (fst (getNextEvent 6) = EVENT_NONE <->
      forall e, In e spec_priority -> pending 6 e = false)
  /\ is_uint32 (snd (getNextEvent 6))
  /\ forall i : Z,
       Z.testbit (snd (getNextEvent 6)) i =
       match bit_of (fst (getNextEvent 6)) with
       | Some pos => if i =? pos then false else Z.testbit 6 i
       | None => Z.testbit 6 i
       end.
Proof.
  assert (H6 : is_uint32 6) by (unfold is_uint32, UINT32_MOD; lia).
  split; [exact H6|].
  exact (getNextEvent_returns_highest_priority_and_clears_it 6 H6).
Defined.

(** The second of two calls in a row, in terms of the bits of the starting
    mask. *)
Lemma second_choose_event_bits (events : Z) :
  is_uint32 events ->
  choose_event (clear_event (choose_event events) events) =
  if Z.testbit events 2 then
    if Z.testbit events 1 then EVENT_LETIMER_COMP1
    else if Z.testbit events 0 then EVENT_LETIMER_UF
    else EVENT_NONE
  else if Z.testbit events 1 then
    if Z.testbit events 0 then EVENT_LETIMER_UF else EVENT_NONE
  else EVENT_NONE.
Proof.
  intros Hev.
  rewrite (choose_event_bits (clear_event _ _)).
  rewrite !clear_event_testbit by exact Hev.
  rewrite choose_event_bits.
  destruct (Z.testbit events 2), (Z.testbit events 1), (Z.testbit events 0);
    reflexivity.
Qed.

(** C5, as the claim states it, fails at the mask 0b110: the first call
    returns the bus-transfer-complete kind, and the second call, with nothing
    posted in between, returns the compare-match kind and not the
    sentinel. *)
Lemma second_getNextEvent_not_none_counterexample :
  fst (getNextEvent 6) = EVENT_I2C_TRANSFER_COMPLETE
  /\ fst (getNextEvent 6) <> EVENT_NONE
  /\ fst (getNextEvent (snd (getNextEvent 6))) = EVENT_LETIMER_COMP1
  /\ fst (getNextEvent (snd (getNextEvent 6))) <> EVENT_NONE.
Proof.
  repeat split; try reflexivity; vm_compute; discriminate.
Qed.

(** C5, amended.  For every starting mask, after a call that returns some
    event kind, a second call with nothing posted in between returns the
    sentinel if and only if no other of the three kinds was pending in the
    starting mask; in general it returns the highest-priority kind still
    pending. *)
Theorem second_getNextEvent_none_iff_nothing_else_pending :
  forall events : Z,
    is_uint32 events ->
    fst (getNextEvent events) <> EVENT_NONE ->
    (fst (getNextEvent (snd (getNextEvent events))) = EVENT_NONE <->
     forall e, In e spec_priority -> e <> fst (getNextEvent events) ->
               pending events e = false)
    /\ fst (getNextEvent (snd (getNextEvent events))) =
       spec_highest_pending (snd (getNextEvent events)).
Proof.
  intros events Hev Hfirst. cbn [getNextEvent fst snd] in *.
  split.
  - rewrite second_choose_event_bits by exact Hev.
    rewrite choose_event_bits in *.
    unfold spec_priority, pending. split.
    + intros Hnone e He Hne. cbn [In] in He.
      destruct (Z.testbit events 2) eqn:H2, (Z.testbit events 1) eqn:H1,
        (Z.testbit events 0) eqn:H0; try discriminate;
        destruct He as [<-|[<-|[<-|[]]]]; cbn [bit_of];
        unfold LETIMERUF_BIT_POS, LETIMERCOMP1_BIT_POS,
          I2C_TRANSFER_COMPLETE_BIT_POS;
        solve [assumption | congruence].
    + intros Hall.
      pose proof (Hall EVENT_I2C_TRANSFER_COMPLETE) as A2.
      pose proof (Hall EVENT_LETIMER_COMP1) as A1.
      pose proof (Hall EVENT_LETIMER_UF) as A0.
      cbn [bit_of In] in A2, A1, A0.
      unfold LETIMERUF_BIT_POS, LETIMERCOMP1_BIT_POS,
        I2C_TRANSFER_COMPLETE_BIT_POS in A2, A1, A0.
      destruct (Z.testbit events 2) eqn:H2, (Z.testbit events 1) eqn:H1,
        (Z.testbit events 0) eqn:H0; try reflexivity;
        try (exfalso; apply Hfirst; reflexivity);
        exfalso;
        first [ assert (true = false) by (apply A1; [tauto | discriminate]);
                discriminate
              | assert (true = false) by (apply A0; [tauto | discriminate]);
                discriminate
              | assert (true = false) by (apply A2; [tauto | discriminate]);
                discriminate ].
  - rewrite choose_event_bits, spec_highest_pending_bits. reflexivity.
Qed.

(** The amended C5 at the mask 0b100, where only the bus event is pending. *)
Lemma second_getNextEvent_none_witness :
  CInt.is_uint32 4
  /\ fst (getNextEvent 4) <> EVENT_NONE
  /\ (fst (getNextEvent (snd (getNextEvent 4))) = EVENT_NONE <->
      forall e, In e spec_priority -> e <> fst (getNextEvent 4) ->
                pending 4 e = false)
  /\ fst (getNextEvent (snd (getNextEvent 4))) =
     spec_highest_pending (snd (getNextEvent 4)).
Proof.
  assert (H4 : is_uint32 4) by (unfold is_uint32, UINT32_MOD; lia).
  assert (Hfirst : fst (getNextEvent 4) <> EVENT_NONE)
    by (vm_compute; discriminate).
  split; [exact H4 | split; [exact Hfirst |]].
  exact (second_getNextEvent_none_iff_nothing_else_pending 4 H4 Hfirst).
Defined.

End SchedulerFacts.

(** ** The temperature conversion *)

Section ConversionFacts.
Import CInt Si7021.
Context {platform : Platform}.

Lemma holds_from_spec (p : Z -> bool) (n : nat) (start : Z) :
  holds_from p n start = true ->
  forall z, start <= z < start + Z.of_nat n -> p z = true.
Proof.
  revert start. induction n as [|k IH]; intros start Hall z Hz.
  - cbn in Hz. lia.
  - cbn [holds_from] in Hall. apply andb_true_iff in Hall as [Hhere Hrest].
    destruct (Z.eq_dec z start) as [->|Hne]; [exact Hhere|].
    apply (IH (start + 1) Hrest). lia.
Qed.

(** The two literals are the doubles nearest to 175.72 and 46.85. *)
Lemma double_literals_correctly_rounded :
  double_175_72 = SFdiv prec emax (double_of_int 17572) (double_of_int 100)
  /\ double_46_85 = SFdiv prec emax (double_of_int 4685) (double_of_int 100).
Proof. split; vm_compute; reflexivity. Qed.

(** Dividing by 65536 is exact: it lowers the exponent by 16. *)
Lemma div_eucl_shifted (m : positive) :
  Z.div_eucl (Z.shiftl (Zpos m) 53) 4503599627370496 = (Zpos m~0, 0).
Proof.
  pose proof (Z.div_eucl_eq (Z.shiftl (Zpos m) 53) 4503599627370496
                ltac:(discriminate)) as Heq.
  pose proof (Z.mod_pos_bound (Z.shiftl (Zpos m) 53) 4503599627370496
                ltac:(reflexivity)) as Hbound.
  unfold Z.modulo in Hbound.
  destruct (Z.div_eucl (Z.shiftl (Zpos m) 53) 4503599627370496) as [q r].
  rewrite Z.shiftl_mul_pow2 in Heq by lia.
  change (2 ^ 53) with 9007199254740992 in Heq.
  assert (Hq : q = Zpos m~0) by lia.
  assert (Hr : r = 0) by lia.
  subst. reflexivity.
Qed.

Lemma SFdiv_65536 (x : spec_float) :
  normal53 x = true ->
  SFdiv prec emax x (double_of_int 65536) = lower_exponent16 x.
Proof.
  destruct x as [s|s| |s m e]; cbn [normal53]; try discriminate.
  intros Hn. apply andb_true_iff in Hn as [Hn Hhi].
  apply andb_true_iff in Hn as [Hd Hlo].
  apply Z.eqb_eq in Hd. apply Z.leb_le in Hlo, Hhi.
  change (double_of_int 65536) with (S754_finite false 4503599627370496 (-36)).
  cbn [SFdiv lower_exponent16]. unfold SFdiv_core_binary.
  cbn [Zdigits2]. rewrite Hd.
  change (Z.pos (digits2_pos 4503599627370496)) with 53.
  unfold fexp, SpecFloat.emin, prec, emax.
  replace (Z.min (Z.max (53 + e - (53 + -36) - 53) (3 - 1024 - 53)) (e - -36))
    with (e - 17) by lia.
  replace (e - -36 - (e - 17)) with 53 by lia.
  cbv beta iota zeta.
  rewrite div_eucl_shifted.
  change (new_location 4503599627370496 0) with loc_Exact.
  unfold binary_round_aux, shr_fexp, fexp, SpecFloat.emin.
  cbn [Zdigits2 digits2_pos]. rewrite Pos2Z.inj_succ, Hd.
  replace (Z.max (Z.succ 53 + (e - 17) - 53) (3 - 1024 - 53) - (e - 17))
    with 1 by lia.
  cbn [shr shr_record_of_loc iter_pos shr_1 orb shr_m loc_of_shr_record
       round_nearest_even Zdigits2].
  rewrite Hd.
  replace (Z.max (53 + (e - 17 + 1) - 53) (3 - 1024 - 53) - (e - 17 + 1))
    with 0 by lia.
  cbn [shr shr_m].
  replace (e - 17 + 1 <=? 1024 - 53) with true
    by (symmetry; apply Z.leb_le; lia).
  rewrite xorb_false_r. f_equal. lia.
Qed.

(** Every 16-bit code from 1 on, one by one: rounding in [double] never
    moves the result across an integer. *)
Lemma truncations_agree_everywhere :
  holds_from truncations_agree (Z.to_nat 65535) 1 = true.
Proof. vm_compute. reflexivity. Qed.

Lemma truncate_conversion (raw : Z) :
  0 <= raw < 65536 ->
  truncate (conversion raw) = Some (exact_truncate raw).
Proof.
  intros Hraw.
  destruct (Z.eq_dec raw 0) as [->|Hpos]; [vm_compute; reflexivity|].
  pose proof (holds_from_spec _ _ _ truncations_agree_everywhere raw
                ltac:(lia)) as Hag.
  unfold truncations_agree in Hag. cbv zeta in Hag.
  apply andb_true_iff in Hag as [Hnormal Hag].
  unfold conversion. rewrite (SFdiv_65536 _ Hnormal).
  destruct (truncate _) as [t|]; [| discriminate Hag].
  f_equal. apply Z.eqb_eq. exact Hag.
Qed.

Lemma Qtruncate_spec_formula (raw : Z) :
  Qtruncate (spec_formula raw) = exact_truncate raw.
Proof.
  unfold Qtruncate, spec_formula, exact_truncate. cbn.
  replace (raw * 17572 * 1 * 100 + -30703616000)
    with (100 * (raw * 17572 - 307036160)) by ring.
  change 655360000 with (100 * 6553600).
  apply Z.quot_mul_cancel_l; discriminate.
Qed.

Lemma spec_formula_above_minus_one (raw : Z) :
  (-1 < spec_formula raw)%Q <-> 17101 <= raw.
Proof. unfold spec_formula, Qlt. cbn. lia. Qed.

Lemma spec_formula_negative (raw : Z) :
  (spec_formula raw < 0)%Q <-> raw <= 17473.
Proof. unfold spec_formula, Qlt. cbn. lia. Qed.

Lemma exact_truncate_range (raw : Z) :
  17101 <= raw < 65536 -> 0 <= exact_truncate raw <= 128.
Proof.
  intros Hraw. unfold exact_truncate.
  Z.quot_rem_to_equations. lia.
Qed.

Lemma exact_truncate_small_negative (raw : Z) :
  17101 <= raw <= 17473 -> exact_truncate raw = 0.
Proof.
  intros Hraw. unfold exact_truncate.
  Z.quot_rem_to_equations. lia.
Qed.

Lemma exact_truncate_below (raw : Z) :
  0 <= raw <= 17100 -> exact_truncate raw <= -1.
Proof.
  intros Hraw. unfold exact_truncate.
  Z.quot_rem_to_equations. lia.
Qed.

(** The reading stored in [temperature_reading] when the formula is above
    -1: the formula with its fractional part discarded. *)
Lemma temperature_reading_truncates (raw : Z) :
  0 <= raw < 65536 ->
  (-1 < spec_formula raw)%Q ->
  temperature_reading_of raw = Qtruncate (spec_formula raw)
  /\ 0 <= temperature_reading_of raw <= 128.
Proof.
  intros Hraw Habove. apply spec_formula_above_minus_one in Habove.
  rewrite Qtruncate_spec_formula.
  pose proof (exact_truncate_range raw ltac:(lia)) as Hrange.
  unfold temperature_reading_of, double_to_uint32.
  rewrite truncate_conversion by exact Hraw.
  replace (0 <=? exact_truncate raw) with true by (symmetry; apply Z.leb_le; lia).
  replace (exact_truncate raw <? UINT32_MOD) with true
    by (symmetry; apply Z.ltb_lt; unfold UINT32_MOD; lia).
  cbn [andb]. split; [reflexivity | exact Hrange].
Qed.

(** Below that, the truncated value is negative and the platform decides. *)
Lemma temperature_reading_unrepresentable (raw : Z) :
  0 <= raw < 65536 ->
  (spec_formula raw <= -1)%Q ->
  temperature_reading_of raw =
  to_uint32 (double_to_uint32_unrepresentable (conversion raw)).
Proof.
  intros Hraw Hbelow.
  assert (Hle : raw <= 17100).
  { apply Z.nlt_ge. intros Hgt.
    apply (Qle_not_lt _ _ Hbelow). apply spec_formula_above_minus_one. lia. }
  pose proof (exact_truncate_below raw ltac:(lia)) as Hneg.
  unfold temperature_reading_of, double_to_uint32.
  rewrite truncate_conversion by exact Hraw.
  replace (0 <=? exact_truncate raw) with false
    by (symmetry; apply Z.leb_gt; lia).
  reflexivity.
Qed.

Lemma encoding_decodes_everywhere :
  holds_from encoding_decodes (Z.to_nat 129) 0 = true.
Proof. vm_compute. reflexivity. Qed.

Lemma encoding_of_reading (t : Z) :
  0 <= t <= 128 ->
  let w := INT32_TO_FLOAT (to_uint32 (t * 1000)) (-3) in
  float_mantissa w = t * 1000
  /\ float_exponent w = -3
  /\ word_of_bytes (UINT32_TO_BITSTREAM w) = w
  /\ (float_value w == inject_Z t)%Q.
Proof.
  intros Ht w.
  pose proof (holds_from_spec _ _ _ encoding_decodes_everywhere t
                ltac:(lia)) as Hdec.
  unfold encoding_decodes in Hdec. fold w in Hdec.
  apply andb_true_iff in Hdec as [Hdec Hbytes].
  apply andb_true_iff in Hdec as [Hman Hexp].
  apply Z.eqb_eq in Hman, Hexp, Hbytes.
  repeat split; try assumption.
  unfold float_value. rewrite Hman, Hexp.
  unfold Qeq. cbn. lia.
Qed.

End ConversionFacts.

(** ** The acquisition machine *)

Section AcquisitionFacts.
Import CInt Scheduler Ble Si7021 StateM Acquisition.
Context {platform : Platform}.

(** Unfolds a dispatch down to the record of the world it leaves; the
    arithmetic of the reading is left folded. *)
Ltac run_machine :=
  cbv [dispatch exec temperature_state_machine_bt switch_currentState
       read_transfer_complete bind ret gets modify when_
       Acquisition.set_nextState Acquisition.set_bleData set_htm_temperature
       Acquisition.do_call mark_indication_in_flight send_condition
       Acquisition.nextState Acquisition.bleData htm_temperature_buffer
       htm_temperature_flt flags Acquisition.calls fst snd
       connection_open ok_to_send_htm_indications indication_in_flight
       isIndicationOnButton connectionHandle serviceHandle
       characteristicHandle serviceHandleHTM characteristicHandleHTM
       serviceHandleButton characteristicHandleButton].

Lemma new_calls_app (w w' : world) (l : list call) :
  calls w' = calls w ++ l -> new_calls w w' = l.
Proof.
  intros Heq. unfold new_calls. rewrite Heq.
  rewrite skipn_app, skipn_all, Nat.sub_diag. reflexivity.
Qed.

(** When the outer [if] is not entered the world is left as it was, but for
    the display row that is cleared when the connection is closed or the
    indications are off. *)
Lemma dispatch_without_preconditions (w : world) (evt : sl_bt_msg_t)
    (r : returns) :
  preconditions evt (bleData w) = false ->
  dispatch w evt r =
  mkWorld (nextState w) (bleData w) (htm_temperature_buffer w)
    (htm_temperature_flt w) (flags w)
    (calls w ++
     if negb (connection_open (bleData w))
        || negb (ok_to_send_htm_indications (bleData w))
     then [displayPrintf DISPLAY_ROW_TEMPVALUE EmptyString []]
     else []).
Proof.
  intros Hpre. destruct w as [s b buf flt fl cs].
  destruct b as [op armed inflight onbutton ch sh chh shh chhh shb chb].
  cbn [Acquisition.bleData] in Hpre. run_machine. rewrite Hpre.
  destruct op, armed; cbn [negb orb]; rewrite ?app_nil_r; reflexivity.
Qed.

(** The state held after a dispatch that enters the outer [if]: the spec's
    table, read off the code. *)
Lemma dispatch_nextState (w : world) (evt : sl_bt_msg_t) (r : returns) :
  preconditions evt (bleData w) = true ->
  nextState (dispatch w evt r) =
  if bit_is_set (extsignals evt) (spec_trigger (nextState w))
  then spec_next (nextState w)
  else nextState w.
Proof.
  intros Hpre. destruct w as [s b buf flt fl cs].
  destruct b as [op armed inflight onbutton ch sh chh shh chhh shb chb].
  cbn [Acquisition.bleData] in Hpre.
  assert (Hflags : op = true /\ armed = true).
  { unfold preconditions in Hpre. cbn in Hpre.
    apply andb_true_iff in Hpre as [Hpre Harmed].
    apply andb_true_iff in Hpre as [_ Hop]. split; assumption. }
  destruct Hflags as [-> ->].
  destruct s; run_machine; rewrite Hpre; cbv [spec_trigger spec_next];
    destruct (bit_is_set (extsignals evt) _); cbn [negb orb andb];
    try reflexivity.
  destruct inflight; cbn [negb orb andb];
    [destruct (0 <? get_queue_depth r);
     [| destruct (negb (send_indication_status r =? SL_STATUS_OK))] |];
    reflexivity.
Qed.

(** The world that the read-complete transition leaves. *)
Lemma dispatch_read_complete (w : world) (evt : sl_bt_msg_t) (r : returns) :
  nextState w = waitForI2CReadTransfer ->
  preconditions evt (bleData w) = true ->
  bit_is_set (extsignals evt) I2C_TRANSFER_COMPLETE_BIT_POS = true ->
  let b := bleData w in
  let reading := temperature_reading_of (to_uint16 (I2C_Get_Data r)) in
  let buffer := encode_reading (flags w) reading in
  dispatch w evt r =
  mkWorld stateIdle
    (if send_condition b r then mark_indication_in_flight b else b)
    buffer
    (INT32_TO_FLOAT (to_uint32 (reading * 1000)) (-3))
    (flags w)
    (calls w ++
     [NVIC_DisableIRQ_I2C0; si7021TurnOff;
      sl_bt_gatt_server_write_attribute_value
        gattdb_temperature_measurement 0 5 buffer] ++
     (if send_condition b r
      then
        sl_bt_gatt_server_send_indication (connectionHandle b)
          gattdb_temperature_measurement 5 buffer ::
        (if negb (send_indication_status r =? SL_STATUS_OK)
         then [LOG_ERROR
                 "sl_bt_gatt_server_send_indication() returned != 0 status=0x%04x\r\n"
                 (send_indication_status r)]
         else [])
      else [write_queue gattdb_temperature_measurement 5 buffer]) ++
     [displayPrintf DISPLAY_ROW_TEMPVALUE "Temp=%d" [reading]]).
Proof.
  intros Hstate Hpre Hbit. destruct w as [s b buf flt fl cs].
  destruct b as [op armed inflight onbutton ch sh chh shh chhh shb chb].
  cbn [Acquisition.bleData Acquisition.nextState] in Hpre, Hstate. subst s.
  assert (Hflags : op = true /\ armed = true).
  { unfold preconditions in Hpre. cbn in Hpre.
    apply andb_true_iff in Hpre as [Hpre Harmed].
    apply andb_true_iff in Hpre as [_ Hop]. split; assumption. }
  destruct Hflags as [-> ->].
  run_machine. rewrite Hpre, Hbit. cbv [send_condition indication_in_flight].
  destruct inflight; cbn [negb orb andb];
    [destruct (0 <? get_queue_depth r); cbn [negb];
     [| destruct (negb (send_indication_status r =? SL_STATUS_OK))] |];
    rewrite <- ?app_assoc; reflexivity.
Qed.

Lemma preconditions_true (evt : sl_bt_msg_t) (b : ble_data_struct_t) :
  preconditions evt b = true <->
  header evt = sl_bt_evt_system_external_signal_id
  /\ connection_open b = true
  /\ ok_to_send_htm_indications b = true.
Proof.
  unfold preconditions. rewrite !andb_true_iff.
  assert (Hid : msg_id_eqb (header evt) sl_bt_evt_system_external_signal_id
                = true <->
                header evt = sl_bt_evt_system_external_signal_id).
  { destruct (header evt); cbn; split; intros H; congruence. }
  tauto.
Qed.

Lemma preconditions_false (evt : sl_bt_msg_t) (b : ble_data_struct_t) :
  preconditions evt b = false <->
  header evt <> sl_bt_evt_system_external_signal_id
  \/ connection_open b = false
  \/ ok_to_send_htm_indications b = false.
Proof.
  rewrite <- not_true_iff_false, preconditions_true.
  destruct (connection_open b), (ok_to_send_htm_indications b);
    intuition congruence.
Qed.

(** A dispatch never changes the two flags that the preconditions read. *)
Lemma dispatch_keeps_flags (w : world) (evt : sl_bt_msg_t) (r : returns) :
  connection_open (bleData (dispatch w evt r)) = connection_open (bleData w)
  /\ ok_to_send_htm_indications (bleData (dispatch w evt r)) =
     ok_to_send_htm_indications (bleData w).
Proof.
  destruct (preconditions evt (bleData w)) eqn:Hpre.
  - destruct (bit_is_set (extsignals evt) (spec_trigger (nextState w)))
      eqn:Hbit.
    + destruct (nextState w) eqn:Hstate.
      5: { rewrite (dispatch_read_complete w evt r Hstate Hpre Hbit).
           cbn [Acquisition.bleData].
           destruct (send_condition (bleData w) r); split; reflexivity. }
      all: destruct w as [s b buf flt fl cs];
        cbn [Acquisition.bleData Acquisition.nextState] in *; subst s;
        cbv [spec_trigger] in Hbit; run_machine; rewrite Hpre, Hbit;
        destruct (negb _ || negb _); split; reflexivity.
    + destruct w as [s b buf flt fl cs];
        cbn [Acquisition.bleData Acquisition.nextState] in *;
        destruct s; cbv [spec_trigger] in Hbit; run_machine;
        rewrite Hpre, Hbit; destruct (negb _ || negb _); split; reflexivity.
  - rewrite (dispatch_without_preconditions w evt r Hpre).
    split; reflexivity.
Qed.

(** C1.  The code at the input the claim is about: the read-complete
    transition with the connection open, the indications armed, no indication
    in flight and an empty retry queue.  The spec's condition for sending
    holds, the condition of the code does not: the buffer is handed to
    [write_queue], no indication is sent, and the in-flight flag stays
    off. *)
Theorem read_complete_enqueues_although_nothing_in_flight :
  forall data : Z,
    let w := sample_world waitForI2CReadTransfer (sample_ble true true false) in
    let r := sample_returns data 0 in
    let w' := dispatch w (external_signal 4) r in
    spec_send_condition (bleData w) r = true
    /\ send_condition (bleData w) r = false
    /\ nextState w' = stateIdle
    /\ indication_in_flight (bleData w') = false
    /\ new_calls w w' =
       [NVIC_DisableIRQ_I2C0; si7021TurnOff;
        sl_bt_gatt_server_write_attribute_value
          gattdb_temperature_measurement 0 5 (htm_temperature_buffer w');
        write_queue gattdb_temperature_measurement 5
          (htm_temperature_buffer w');
        displayPrintf DISPLAY_ROW_TEMPVALUE "Temp=%d"
          [temperature_reading_of (to_uint16 data)]].
Proof.
  intros data w r w'.
  assert (Hw' : w' = dispatch w (external_signal 4) r) by reflexivity.
  rewrite (dispatch_read_complete w (external_signal 4) r) in Hw'
    by reflexivity.
  rewrite Hw'. cbn [Acquisition.nextState Acquisition.bleData
                    htm_temperature_buffer].
  repeat split.
Qed.

(** The condition of the code against the condition of the spec, for every
    state of the flag and every queue depth: the code sends when an indication
    IS in flight and the queue is empty. *)
Lemma read_complete_send_conditions (b : ble_data_struct_t) (r : returns) :
  0 <= get_queue_depth r ->
  (send_condition b r = true <->
   indication_in_flight b = true /\ get_queue_depth r = 0)
  /\ (spec_send_condition b r = true <->
      indication_in_flight b = false /\ get_queue_depth r = 0).
Proof.
  intros Hdepth. unfold send_condition, spec_send_condition.
  destruct (indication_in_flight b); cbn [negb orb andb];
    rewrite ?negb_true_iff, ?Z.ltb_ge, ?Z.eqb_eq;
    intuition (try congruence; try lia).
Qed.

(** C2, amended.  In state AwaitingReadComplete, with the
    bus-transfer-complete trigger present and the connection closed, the
    dispatch performs no transition (the state stays AwaitingReadComplete),
    writes nothing to the attribute server, sends and enqueues nothing, and
    clears the display row: that one call is all it does. *)
Theorem read_complete_with_connection_closed_is_not_run :
  forall (w : world) (evt : sl_bt_msg_t) (r : returns),
    nextState w = waitForI2CReadTransfer ->
    header evt = sl_bt_evt_system_external_signal_id ->
    bit_is_set (extsignals evt) I2C_TRANSFER_COMPLETE_BIT_POS = true ->
    connection_open (bleData w) = false ->
    nextState (dispatch w evt r) = waitForI2CReadTransfer
    /\ bleData (dispatch w evt r) = bleData w
    /\ htm_temperature_buffer (dispatch w evt r) = htm_temperature_buffer w
    /\ htm_temperature_flt (dispatch w evt r) = htm_temperature_flt w
    /\ new_calls w (dispatch w evt r) =
       [displayPrintf DISPLAY_ROW_TEMPVALUE EmptyString []].
Proof.
  intros w evt r Hstate Hid Hbit Hclosed.
  assert (Hpre : preconditions evt (bleData w) = false).
  { apply preconditions_false. right. left. exact Hclosed. }
  rewrite (dispatch_without_preconditions w evt r Hpre).
  cbn [Acquisition.nextState Acquisition.bleData htm_temperature_buffer
       htm_temperature_flt].
  repeat split; try assumption.
  apply new_calls_app. cbn [Acquisition.calls].
  rewrite Hclosed. reflexivity.
Qed.

(** C3, amended.  When at least one of the three preconditions fails the
    dispatch performs no state transition and touches neither the BLE data nor
    the reading buffer; it clears the display row exactly when the connection
    is closed or the indications are not armed, and makes no call at all when
    only the event class is wrong. *)
Theorem failed_precondition_keeps_state_and_clears_display_if_unlinked :
  forall (w : world) (evt : sl_bt_msg_t) (r : returns),
    header evt <> sl_bt_evt_system_external_signal_id
    \/ connection_open (bleData w) = false
    \/ ok_to_send_htm_indications (bleData w) = false ->
    nextState (dispatch w evt r) = nextState w
    /\ bleData (dispatch w evt r) = bleData w
    /\ htm_temperature_buffer (dispatch w evt r) = htm_temperature_buffer w
    /\ new_calls w (dispatch w evt r) =
       if negb (connection_open (bleData w))
          || negb (ok_to_send_htm_indications (bleData w))
       then [displayPrintf DISPLAY_ROW_TEMPVALUE EmptyString []]
       else [].
Proof.
  intros w evt r Hfail. apply preconditions_false in Hfail.
  rewrite (dispatch_without_preconditions w evt r Hfail).
  cbn [Acquisition.nextState Acquisition.bleData htm_temperature_buffer].
  repeat split. apply new_calls_app. reflexivity.
Qed.

(** One triggered step: the state moves on, the two flags stay. *)
Lemma triggered_step (w : world) (x : Z) (r : returns) :
  connection_open (bleData w) = true ->
  ok_to_send_htm_indications (bleData w) = true ->
  bit_is_set x (spec_trigger (nextState w)) = true ->
  nextState (dispatch w (external_signal x) r) = spec_next (nextState w)
  /\ connection_open (bleData (dispatch w (external_signal x) r)) = true
  /\ ok_to_send_htm_indications
       (bleData (dispatch w (external_signal x) r)) = true.
Proof.
  intros Hopen Harmed Hbit.
  assert (Hpre : preconditions (external_signal x) (bleData w) = true).
  { apply preconditions_true. repeat split; assumption. }
  destruct (dispatch_keeps_flags w (external_signal x) r) as [Ho Ha].
  rewrite Ho, Ha, (dispatch_nextState w _ r Hpre).
  cbn [extsignals external_signal]. rewrite Hbit. repeat split; assumption.
Qed.

(** C6.  With the connection open and the indications armed, the five
    triggers [underflow, compare-match, bus-complete, compare-match,
    bus-complete], fed as external-signal events from Idle, leave the machine
    in AwaitingPowerOnReset, AwaitingWriteComplete, AwaitingConversion,
    AwaitingReadComplete and Idle, in that order; and in every state an
    external-signal event without the trigger bit of that state leaves the
    state as it is, while one with it moves to the next state of the
    table. *)
Theorem acquisition_cycle_and_ignored_triggers :
  forall (idle w : world) (r1 r2 r3 r4 r5 : returns),
    nextState idle = stateIdle ->
    connection_open (bleData idle) = true ->
    ok_to_send_htm_indications (bleData idle) = true ->
    connection_open (bleData w) = true ->
    ok_to_send_htm_indications (bleData w) = true ->
    fst (run idle (combine (map external_signal spec_trigger_sequence)
                           [r1; r2; r3; r4; r5])) = spec_cycle
    /\ nextState
         (snd (run idle (combine (map external_signal spec_trigger_sequence)
                                 [r1; r2; r3; r4; r5]))) = stateIdle
    /\ (forall (x : Z) (r : returns),
          bit_is_set x (spec_trigger (nextState w)) = false ->
          nextState (dispatch w (external_signal x) r) = nextState w)
    /\ (forall (x : Z) (r : returns),
          bit_is_set x (spec_trigger (nextState w)) = true ->
          nextState (dispatch w (external_signal x) r) =
          spec_next (nextState w)).
Proof.
  intros idle w r1 r2 r3 r4 r5 Hidle Hopen0 Harmed0 Hopen Harmed.
  assert (Hcycle :
    fst (run idle (combine (map external_signal spec_trigger_sequence)
                           [r1; r2; r3; r4; r5])) = spec_cycle
    /\ nextState
         (snd (run idle (combine (map external_signal spec_trigger_sequence)
                                 [r1; r2; r3; r4; r5]))) = stateIdle).
  { cbn [spec_trigger_sequence map combine run].
    set (w1 := dispatch idle _ r1). set (w2 := dispatch w1 _ r2).
    set (w3 := dispatch w2 _ r3). set (w4 := dispatch w3 _ r4).
    set (w5 := dispatch w4 _ r5). cbn [fst snd].
    destruct (triggered_step idle (Z.shiftl 1 LETIMERUF_BIT_POS) r1
                Hopen0 Harmed0) as (S1 & O1 & A1);
      [rewrite Hidle; reflexivity|].
    fold w1 in S1, O1, A1. rewrite Hidle in S1. cbn [spec_next] in S1.
    destruct (triggered_step w1 (Z.shiftl 1 LETIMERCOMP1_BIT_POS) r2
                O1 A1) as (S2 & O2 & A2);
      [rewrite S1; reflexivity|].
    fold w2 in S2, O2, A2. rewrite S1 in S2. cbn [spec_next] in S2.
    destruct (triggered_step w2 (Z.shiftl 1 I2C_TRANSFER_COMPLETE_BIT_POS) r3
                O2 A2) as (S3 & O3 & A3);
      [rewrite S2; reflexivity|].
    fold w3 in S3, O3, A3. rewrite S2 in S3. cbn [spec_next] in S3.
    destruct (triggered_step w3 (Z.shiftl 1 LETIMERCOMP1_BIT_POS) r4
                O3 A3) as (S4 & O4 & A4);
      [rewrite S3; reflexivity|].
    fold w4 in S4, O4, A4. rewrite S3 in S4. cbn [spec_next] in S4.
    destruct (triggered_step w4 (Z.shiftl 1 I2C_TRANSFER_COMPLETE_BIT_POS) r5
                O4 A4) as (S5 & O5 & A5);
      [rewrite S4; reflexivity|].
    fold w5 in S5, O5, A5. rewrite S4 in S5. cbn [spec_next] in S5.
    rewrite S1, S2, S3, S4, S5. split; reflexivity. }
  destruct Hcycle as [Hvisited Hlast].
  split; [exact Hvisited|]. split; [exact Hlast|]. split.
  - intros x r Hbit.
    rewrite dispatch_nextState
      by (apply preconditions_true; repeat split; assumption).
    cbn [extsignals external_signal]. rewrite Hbit. reflexivity.
  - intros x r Hbit.
    apply (triggered_step w x r Hopen Harmed Hbit).
Qed.

(** C9, amended.  On the read-complete transition the payload is read as
    an unsigned 16-bit raw code; whenever raw * 175.72 / 65536 - 46.85 is
    above -1 the published temperature is that value with its fractional part
    discarded, an integer between 0 and 128.  The 5-byte buffer that is
    written to the attribute server holds the flags byte followed by the four
    little-endian bytes of a mantissa-plus-exponent word with mantissa
    1000 * reading and exponent -3, which stands for the integer reading.  For
    the raw code 0x6A89 the formula lies between 26.27 and 26.28 and the
    published reading is 26. *)
Theorem read_complete_publishes_truncated_formula :
  forall (w : world) (evt : sl_bt_msg_t) (r : returns),
    nextState w = waitForI2CReadTransfer ->
    preconditions evt (bleData w) = true ->
    bit_is_set (extsignals evt) I2C_TRANSFER_COMPLETE_BIT_POS = true ->
    (-1 < spec_formula (to_uint16 (I2C_Get_Data r)))%Q ->
    let raw := to_uint16 (I2C_Get_Data r) in
    let reading := Qtruncate (spec_formula raw) in
    let w' := dispatch w evt r in
    0 <= raw < 65536
    /\ 0 <= reading <= 128
    /\ htm_temperature_buffer w' =
       to_uint8 (flags w) :: UINT32_TO_BITSTREAM (htm_temperature_flt w')
    /\ word_of_bytes (UINT32_TO_BITSTREAM (htm_temperature_flt w')) =
       htm_temperature_flt w'
    /\ float_mantissa (htm_temperature_flt w') = reading * 1000
    /\ float_exponent (htm_temperature_flt w') = -3
    /\ (float_value (htm_temperature_flt w') == inject_Z reading)%Q
    /\ In (sl_bt_gatt_server_write_attribute_value
             gattdb_temperature_measurement 0 5 (htm_temperature_buffer w'))
          (new_calls w w')
    /\ Qtruncate (spec_formula 27273) = 26
    /\ (2627 # 100 < spec_formula 27273)%Q
    /\ (spec_formula 27273 < 2628 # 100)%Q.
Proof.
  intros w evt r Hstate Hpre Hbit Habove raw reading w'.
  assert (Hraw : 0 <= raw < 65536).
  { unfold raw, to_uint16, UINT16_MOD. apply Z.mod_pos_bound. lia. }
  destruct (temperature_reading_truncates raw Hraw Habove) as [Hread Hrange].
  fold reading in Hread.
  assert (Hw' : w' = dispatch w evt r) by reflexivity.
  rewrite (dispatch_read_complete w evt r Hstate Hpre Hbit) in Hw'.
  fold raw in Hw'. rewrite Hread in Hw', Hrange.
  destruct (encoding_of_reading reading Hrange) as (Hman & Hexp & Hbytes & Hval).
  rewrite Hw'.
  cbn [htm_temperature_buffer htm_temperature_flt].
  split; [exact Hraw|]. split; [exact Hrange|].
  split; [reflexivity|]. split; [exact Hbytes|]. split; [exact Hman|].
  split; [exact Hexp|]. split; [exact Hval|]. split.
  - erewrite new_calls_app by reflexivity.
    cbn [app In]. right. right. left. reflexivity.
  - repeat split; vm_compute; reflexivity.
Qed.

(** C10, amended.  [temperature_reading] is a [uint32_t]: for every raw
    code whose formula value is above -1 the stored reading, which is also the
    argument of the display call, is the formula value with its fractional
    part discarded (26 for 0x6A89); in particular it is 0, not a large
    number, for the codes whose formula value lies between -1 and 0.  At or
    below -1 the truncated value is not a [uint32_t] value and the stored
    reading is what the platform's conversion yields. *)
Theorem stored_reading_is_truncated_formula :
  forall (w : world) (evt : sl_bt_msg_t) (r : returns),
    nextState w = waitForI2CReadTransfer ->
    preconditions evt (bleData w) = true ->
    bit_is_set (extsignals evt) I2C_TRANSFER_COMPLETE_BIT_POS = true ->
    let raw := to_uint16 (I2C_Get_Data r) in
    let stored := temperature_reading_of raw in
    let w' := dispatch w evt r in
    In (displayPrintf DISPLAY_ROW_TEMPVALUE "Temp=%d" [stored])
       (new_calls w w')
    /\ htm_temperature_buffer w' = encode_reading (flags w) stored
    /\ ((-1 < spec_formula raw)%Q ->
        stored = Qtruncate (spec_formula raw) /\ 0 <= stored <= 128)
    /\ ((-1 < spec_formula raw)%Q -> (spec_formula raw < 0)%Q -> stored = 0)
    /\ ((spec_formula raw <= -1)%Q ->
        stored =
        to_uint32 (double_to_uint32_unrepresentable (conversion raw)))
    /\ (raw = 27273 -> stored = 26).
Proof.
  intros w evt r Hstate Hpre Hbit raw stored w'.
  assert (Hraw : 0 <= raw < 65536).
  { unfold raw, to_uint16, UINT16_MOD. apply Z.mod_pos_bound. lia. }
  assert (Hw' : w' = dispatch w evt r) by reflexivity.
  rewrite (dispatch_read_complete w evt r Hstate Hpre Hbit) in Hw'.
  fold raw in Hw'. fold stored in Hw'.
  split; [| split; [| split; [| split; [| split]]]].
  - erewrite new_calls_app by (rewrite Hw'; reflexivity).
    apply in_or_app. right. apply in_or_app. right. left. reflexivity.
  - rewrite Hw'. reflexivity.
  - intros Habove. apply temperature_reading_truncates; assumption.
  - intros Habove Hneg.
    destruct (temperature_reading_truncates raw Hraw Habove) as [Heq _].
    unfold stored. rewrite Heq, Qtruncate_spec_formula.
    apply exact_truncate_small_negative.
    apply spec_formula_above_minus_one in Habove.
    apply spec_formula_negative in Hneg. lia.
  - intros Hbelow. apply temperature_reading_unrepresentable; assumption.
  - intros Hcode.
    assert (Habove : (-1 < spec_formula raw)%Q)
      by (apply spec_formula_above_minus_one; lia).
    destruct (temperature_reading_truncates raw Hraw Habove) as [Heq _].
    unfold stored. rewrite Heq, Hcode. vm_compute. reflexivity.
Qed.

End AcquisitionFacts.

(** ** The discovery machine *)

Section DiscoveryFacts.
Import Ble StateM Discovery.
Context {platform : Platform}.

Ltac run_discovery :=
  cbv [Discovery.dispatch exec Discovery_State_Machine log_if_failed
       bind ret gets modify when_ Discovery.set_nextState
       Discovery.set_bleData Discovery.do_call
       Discovery.nextState Discovery.bleData Discovery.calls fst snd].

(** The state held after a dispatch: the spec's table, read off the code.
    No state looks at anything but the identifier of the event. *)
Lemma discovery_nextState (w : world) (evt : sl_bt_msg_t) (sc : Z) :
  nextState (dispatch w evt sc) =
  if msg_id_eqb (header evt) (spec_trigger (nextState w))
  then spec_next (nextState w)
  else nextState w.
Proof.
  destruct w as [s b cs]. destruct s; run_discovery;
    cbv [spec_trigger spec_next];
    destruct (msg_id_eqb (header evt) _); try reflexivity;
    destruct (negb (sc =? SL_STATUS_OK)); reflexivity.
Qed.

(** A dispatch whose event is not the awaited one leaves the whole world as
    it was. *)
Lemma discovery_ignores (w : world) (evt : sl_bt_msg_t) (sc : Z) :
  msg_id_eqb (header evt) (spec_trigger (nextState w)) = false ->
  dispatch w evt sc = w.
Proof.
  intros Hother. destruct w as [s b cs].
  cbn [Discovery.nextState] in Hother.
  destruct s; cbv [spec_trigger] in Hother; run_discovery;
    rewrite Hother; reflexivity.
Qed.

Lemma msg_id_eqb_eq (a b : msg_id) : msg_id_eqb a b = true <-> a = b.
Proof.
  destruct a, b; cbn; split; intros H; try congruence; try reflexivity.
  - apply Z.eqb_eq in H. congruence.
  - inversion H. apply Z.eqb_refl.
Qed.

Lemma discovery_run_cons (w : world) (evt : sl_bt_msg_t) (sc : Z)
    (rest : list (sl_bt_msg_t * Z)) :
  fst (run w ((evt, sc) :: rest)) =
  nextState (dispatch w evt sc) :: fst (run (dispatch w evt sc) rest)
  /\ snd (run w ((evt, sc) :: rest)) = snd (run (dispatch w evt sc) rest).
Proof.
  cbn [run]. destruct (run (dispatch w evt sc) rest). split; reflexivity.
Qed.

(** A run visits the states that the table gives for the identifiers of its
    events. *)
Lemma discovery_run_follows_table (inputs : list (sl_bt_msg_t * Z)) :
  forall w : world,
    fst (run w inputs) =
    spec_states (nextState w) (map (fun i => header (fst i)) inputs).
Proof.
  induction inputs as [|[evt sc] rest IH]; intros w; [reflexivity|].
  destruct (discovery_run_cons w evt sc rest) as [-> _].
  rewrite IH, discovery_nextState. reflexivity.
Qed.

(** C7.  From state 1 a connection-opened event leads to state 2, five
    procedure-completed events lead on through states 3, 4, 5, 6 and 7, a
    sixth procedure-completed event leaves state 7, and a connection-closed
    event then leads back to state 1; whatever the BLE data, the statuses that
    the API calls return and the payloads of the events. *)
Theorem discovery_sequence_visits_states_in_order :
  forall (b : ble_data_struct_t) (cs : list call)
         (sc1 sc2 sc3 sc4 sc5 sc6 sc7 sc8 x1 x2 x3 x4 x5 x6 x7 x8 : Z),
    let opened := mkMsg sl_bt_evt_connection_opened_id in
    let completed := mkMsg sl_bt_evt_gatt_procedure_completed_id in
    let closed := mkMsg sl_bt_evt_connection_closed_id in
    fst (run (mkWorld State_1 b cs)
             [(opened x1, sc1); (completed x2, sc2); (completed x3, sc3);
              (completed x4, sc4); (completed x5, sc5); (completed x6, sc6);
              (completed x7, sc7); (closed x8, sc8)])
    = [State_2; State_3; State_4; State_5; State_6; State_7; State_7; State_1]
    /\ nextState (dispatch (mkWorld State_1 b cs) (opened x1) sc1) = State_2
    /\ nextState (dispatch (mkWorld State_7 b cs) (completed x7) sc7) = State_7
    /\ nextState (dispatch (mkWorld State_7 b cs) (closed x8) sc8) = State_1.
Proof.
  intros. split.
  - rewrite discovery_run_follows_table. reflexivity.
  - repeat split; rewrite discovery_nextState; reflexivity.
Qed.

(** Events other than procedure-completed leave a discovery under way where
    it is. *)
Lemma mid_discovery_waits (inputs : list (sl_bt_msg_t * Z)) :
  forall w : world,
    In (nextState w) mid_discovery ->
    Forall (fun i => header (fst i) <> sl_bt_evt_gatt_procedure_completed_id)
           inputs ->
    snd (run w inputs) = w
    /\ Forall (fun s => s = nextState w) (fst (run w inputs)).
Proof.
  induction inputs as [|[evt sc] rest IH]; intros w Hmid Hno.
  - split; [reflexivity | constructor].
  - inversion Hno as [|? ? Hevt Hrest]; subst. cbn [fst] in Hevt.
    destruct (discovery_run_cons w evt sc rest) as [-> ->].
    assert (Hsame : dispatch w evt sc = w).
    { apply discovery_ignores.
      apply not_true_iff_false. rewrite msg_id_eqb_eq. intros Heq.
      apply Hevt. rewrite Heq.
      cbv [mid_discovery In] in Hmid.
      destruct Hmid as [<-|[<-|[<-|[<-|[<-|[]]]]]]; reflexivity. }
    rewrite Hsame. destruct (IH w Hmid Hrest) as [Hw Hall].
    split; [exact Hw | constructor; [reflexivity | exact Hall]].
Qed.

(** C8.  In each of the states 2 to 6 a connection-closed event changes
    nothing: the state, the BLE data and the trace stay as they were; no run
    of events without a procedure-completed event moves the machine, and the
    next procedure-completed event moves it on.  Only state 7 reacts to a
    connection-closed event. *)
Theorem disconnect_during_discovery_is_ignored :
  forall (w : world) (x sc : Z),
    In (nextState w) mid_discovery ->
    dispatch w (mkMsg sl_bt_evt_connection_closed_id x) sc = w
    /\ (forall inputs : list (sl_bt_msg_t * Z),
          Forall (fun i =>
                    header (fst i) <> sl_bt_evt_gatt_procedure_completed_id)
                 inputs ->
          snd (run w inputs) = w
          /\ Forall (fun s => s = nextState w) (fst (run w inputs)))
    /\ (forall y sc', 
          nextState
            (dispatch w (mkMsg sl_bt_evt_gatt_procedure_completed_id y) sc')
          = spec_next (nextState w))
    /\ (forall (v : world) (y sc' : Z),
          nextState (dispatch v (mkMsg sl_bt_evt_connection_closed_id y) sc')
          = if state_number (nextState v) =? 7 then State_1 else nextState v).
Proof.
  intros w x sc Hmid. split; [| split; [| split]].
  - apply discovery_ignores. cbn [header].
    cbv [mid_discovery In] in Hmid.
    destruct Hmid as [<-|[<-|[<-|[<-|[<-|[]]]]]]; reflexivity.
  - intros inputs Hno. apply mid_discovery_waits; assumption.
  - intros y sc'. rewrite discovery_nextState. cbn [header].
    cbv [mid_discovery In] in Hmid.
    destruct Hmid as [<-|[<-|[<-|[<-|[<-|[]]]]]]; reflexivity.
  - intros v y sc'. rewrite discovery_nextState. cbn [header].
    destruct (nextState v); reflexivity.
Qed.

End DiscoveryFacts.

(** ** Concrete runs on the sample platform *)

Section ConcreteRuns.
Import CInt Scheduler Ble Si7021 Acquisition.

(** C2, as the claim states it, fails: in AwaitingReadComplete, with the
    bus-transfer-complete signal and the connection closed, the state after the
    dispatch is still AwaitingReadComplete, not Idle, and the only call made is
    the one clearing the display row: nothing is written to the attribute
    server. *)
Lemma read_complete_connection_closed_counterexample :
  let w := sample_world waitForI2CReadTransfer (sample_ble false true false) in
  let w' := @dispatch sample_platform w (external_signal 4)
              (sample_returns 27273 0) in
  nextState w = waitForI2CReadTransfer
  /\ bit_is_set 4 I2C_TRANSFER_COMPLETE_BIT_POS = true
  /\ connection_open (bleData w) = false
  /\ nextState w' = waitForI2CReadTransfer
  /\ nextState w' <> stateIdle
  /\ new_calls w w' = [displayPrintf DISPLAY_ROW_TEMPVALUE EmptyString []]
  /\ htm_temperature_buffer w' = htm_temperature_buffer w.
Proof.
  cbv zeta. repeat split; try reflexivity. vm_compute. discriminate.
Qed.

(** The amended C2 on that input. *)
Lemma read_complete_with_connection_closed_witness :
  let w := sample_world waitForI2CReadTransfer (sample_ble false true false) in
  let evt := external_signal 4 in
  let r := sample_returns 27273 0 in
  nextState w = waitForI2CReadTransfer
  /\ header evt = sl_bt_evt_system_external_signal_id
  /\ bit_is_set (extsignals evt) I2C_TRANSFER_COMPLETE_BIT_POS = true
  /\ connection_open (bleData w) = false
  /\ nextState (@dispatch sample_platform w evt r) = waitForI2CReadTransfer
  /\ bleData (@dispatch sample_platform w evt r) = bleData w
  /\ htm_temperature_buffer (@dispatch sample_platform w evt r) =
     htm_temperature_buffer w
  /\ htm_temperature_flt (@dispatch sample_platform w evt r) =
     htm_temperature_flt w
  /\ new_calls w (@dispatch sample_platform w evt r) =
     [displayPrintf DISPLAY_ROW_TEMPVALUE EmptyString []].
Proof.
  cbv zeta.
  split; [reflexivity|]. split; [reflexivity|]. split; [reflexivity|].
  split; [reflexivity|].
  exact (@read_complete_with_connection_closed_is_not_run sample_platform
           (sample_world waitForI2CReadTransfer (sample_ble false true false))
           (external_signal 4) (sample_returns 27273 0)
           eq_refl eq_refl eq_refl eq_refl).
Defined.

(** C3, as the claim states it, fails: a procedure-completed event is not
    an external-signal event, so the first precondition fails; with the
    connection open and the indications armed the dispatch makes no call at
    all, and the display row is not cleared. *)
Lemma failed_precondition_display_kept_counterexample :
  let w := sample_world waitForSi7021POR (sample_ble true true false) in
  let evt := mkMsg sl_bt_evt_gatt_procedure_completed_id 2 in
  let w' := @dispatch sample_platform w evt (sample_returns 27273 0) in
  header evt <> sl_bt_evt_system_external_signal_id
  /\ preconditions evt (bleData w) = false
  /\ new_calls w w' = []
  /\ ~ In (displayPrintf DISPLAY_ROW_TEMPVALUE EmptyString []) (new_calls w w')
  /\ nextState w' = nextState w.
Proof.
  cbv zeta. repeat split; try reflexivity.
  - discriminate.
  - vm_compute. tauto.
Qed.

(** The amended C3 on an input whose connection is closed. *)
Lemma failed_precondition_keeps_state_witness :
  let w := sample_world waitForSi7021POR (sample_ble false true false) in
  let evt := external_signal 2 in
  let r := sample_returns 27273 0 in
  (header evt <> sl_bt_evt_system_external_signal_id
   \/ connection_open (bleData w) = false
   \/ ok_to_send_htm_indications (bleData w) = false)
  /\ nextState (@dispatch sample_platform w evt r) = nextState w
  /\ bleData (@dispatch sample_platform w evt r) = bleData w
  /\ htm_temperature_buffer (@dispatch sample_platform w evt r) =
     htm_temperature_buffer w
  /\ new_calls w (@dispatch sample_platform w evt r) =
     if negb (connection_open (bleData w))
        || negb (ok_to_send_htm_indications (bleData w))
     then [displayPrintf DISPLAY_ROW_TEMPVALUE EmptyString []]
     else [].
Proof.
  cbv zeta.
  assert (Hfail :
    header (external_signal 2) <> sl_bt_evt_system_external_signal_id
    \/ connection_open
         (bleData (sample_world waitForSi7021POR
                     (sample_ble false true false))) = false
    \/ ok_to_send_htm_indications
         (bleData (sample_world waitForSi7021POR
                     (sample_ble false true false))) = false)
    by (right; left; reflexivity).
  split; [exact Hfail|].
  exact (@failed_precondition_keeps_state_and_clears_display_if_unlinked
           sample_platform _ _ (sample_returns 27273 0) Hfail).
Defined.

(** C6 on the sample world: the cycle from Idle, and the steps from
    AwaitingConversion. *)
Lemma acquisition_cycle_witness :
  let idle := sample_world stateIdle (sample_ble true true false) in
  let w := sample_world waitForSi7021Conversion (sample_ble true true false) in
  let r := sample_returns 27273 0 in
  nextState idle = stateIdle
  /\ connection_open (bleData idle) = true
  /\ ok_to_send_htm_indications (bleData idle) = true
  /\ connection_open (bleData w) = true
  /\ ok_to_send_htm_indications (bleData w) = true
  /\ fst (@run sample_platform idle
             (combine (map external_signal spec_trigger_sequence)
                      [r; r; r; r; r])) = spec_cycle
  /\ nextState
       (snd (@run sample_platform idle
               (combine (map external_signal spec_trigger_sequence)
                        [r; r; r; r; r]))) = stateIdle
  /\ (forall (x : Z) (r' : returns),
        bit_is_set x (spec_trigger (nextState w)) = false ->
        nextState (@dispatch sample_platform w (external_signal x) r') =
        nextState w)
  /\ (forall (x : Z) (r' : returns),
        bit_is_set x (spec_trigger (nextState w)) = true ->
        nextState (@dispatch sample_platform w (external_signal x) r') =
        spec_next (nextState w)).
Proof.
  cbv zeta. split; [reflexivity|]. split; [reflexivity|].
  split; [reflexivity|]. split; [reflexivity|]. split; [reflexivity|].
  exact (@acquisition_cycle_and_ignored_triggers sample_platform
           (sample_world stateIdle (sample_ble true true false))
           (sample_world waitForSi7021Conversion (sample_ble true true false))
           (sample_returns 27273 0) (sample_returns 27273 0)
           (sample_returns 27273 0) (sample_returns 27273 0)
           (sample_returns 27273 0) eq_refl eq_refl eq_refl eq_refl eq_refl).
Defined.

(** The cycle of C6, computed: the five states in order, and the calls the
    five dispatches make. *)
Lemma acquisition_cycle_computed :
  let w := sample_world stateIdle (sample_ble true true false) in
  let r := sample_returns 27273 0 in
  fst (@run sample_platform w
         (combine (map external_signal spec_trigger_sequence)
                  [r; r; r; r; r]))
  = [waitForSi7021POR; waitForI2CWriteTransfer; waitForSi7021Conversion;
     waitForI2CReadTransfer; stateIdle].
Proof. vm_compute. reflexivity. Qed.

(** An out-of-order trigger, computed: a bus-transfer-complete signal in
    AwaitingPowerOnReset makes no call and leaves the state. *)
Lemma out_of_order_trigger_computed :
  let w := sample_world waitForSi7021POR (sample_ble true true false) in
  @dispatch sample_platform w (external_signal 4) (sample_returns 27273 0) = w.
Proof. vm_compute. reflexivity. Qed.

End ConcreteRuns.

Section ConcreteReadings.
Import CInt Scheduler Ble Si7021 Acquisition.

(** C9, as the claim states it, fails at the raw code 0x6A89: the word
    published in the buffer stands for 26, which is not the value of the
    formula; and the formula itself is below 26.28 there, so it is not
    "approximately 26.99" either. *)
Lemma published_reading_counterexample :
  let w := sample_world waitForI2CReadTransfer (sample_ble true true true) in
  let w' := @dispatch sample_platform w (external_signal 4)
              (sample_returns 27273 0) in
  htm_temperature_buffer w' = [0; 144; 101; 0; 253]
  /\ word_of_bytes (tl (htm_temperature_buffer w')) = htm_temperature_flt w'
  /\ (float_value (htm_temperature_flt w') == 26)%Q
  /\ ~ (float_value (htm_temperature_flt w') == spec_formula 27273)%Q
  /\ (spec_formula 27273 < 2628 # 100)%Q
  /\ ~ (2698 # 100 <= spec_formula 27273)%Q.
Proof.
  cbv zeta.
  split; [vm_compute; reflexivity|]. split; [vm_compute; reflexivity|].
  split; [vm_compute; reflexivity|].
  split; [vm_compute; discriminate|].
  split; [vm_compute; reflexivity|].
  vm_compute. intros H. apply H. reflexivity.
Qed.

(** The amended C9 on that input. *)
Lemma read_complete_publishes_truncated_formula_witness :
  let w := sample_world waitForI2CReadTransfer (sample_ble true true true) in
  let evt := external_signal 4 in
  let r := sample_returns 27273 0 in
  let raw := to_uint16 (I2C_Get_Data r) in
  let reading := Qtruncate (spec_formula raw) in
  let w' := @dispatch sample_platform w evt r in
  nextState w = waitForI2CReadTransfer
  /\ preconditions evt (bleData w) = true
  /\ bit_is_set (extsignals evt) I2C_TRANSFER_COMPLETE_BIT_POS = true
  /\ (-1 < spec_formula (to_uint16 (I2C_Get_Data r)))%Q
  /\ 0 <= raw < 65536
  /\ 0 <= reading <= 128
  /\ htm_temperature_buffer w' =
     to_uint8 (flags w) :: UINT32_TO_BITSTREAM (htm_temperature_flt w')
  /\ word_of_bytes (UINT32_TO_BITSTREAM (htm_temperature_flt w')) =
     htm_temperature_flt w'
  /\ float_mantissa (htm_temperature_flt w') = reading * 1000
  /\ float_exponent (htm_temperature_flt w') = -3
  /\ (float_value (htm_temperature_flt w') == inject_Z reading)%Q
  /\ In (sl_bt_gatt_server_write_attribute_value
           (@gattdb_temperature_measurement sample_platform) 0 5
           (htm_temperature_buffer w'))
        (new_calls w w')
  /\ Qtruncate (spec_formula 27273) = 26
  /\ (2627 # 100 < spec_formula 27273)%Q
  /\ (spec_formula 27273 < 2628 # 100)%Q.
Proof.
  cbv zeta.
  assert (Habove :
    (-1 < spec_formula (to_uint16 (I2C_Get_Data (sample_returns 27273 0))))%Q)
    by (vm_compute; reflexivity).
  split; [reflexivity|]. split; [reflexivity|]. split; [reflexivity|].
  split; [exact Habove|].
  exact (@read_complete_publishes_truncated_formula sample_platform
           (sample_world waitForI2CReadTransfer (sample_ble true true true))
           (external_signal 4) (sample_returns 27273 0)
           eq_refl eq_refl eq_refl Habove).
Defined.

(** C10, as the claim states it, fails at the raw code 17300: the formula
    is negative there (about -0.46), and the stored reading is 0, not a large
    unsigned number; this on a platform whose conversion wraps modulo 2^32
    wherever C leaves it open. *)
Lemma negative_formula_stored_as_zero_counterexample :
  (spec_formula 17300 < 0)%Q
  /\ (-1 < spec_formula 17300)%Q
  /\ @temperature_reading_of sample_platform 17300 = 0
  /\ In (displayPrintf DISPLAY_ROW_TEMPVALUE "Temp=%d" [0])
        (calls (@dispatch sample_platform
                  (sample_world waitForI2CReadTransfer
                     (sample_ble true true true))
                  (external_signal 4) (sample_returns 17300 0))).
Proof.
  split; [vm_compute; reflexivity|]. split; [vm_compute; reflexivity|].
  split; [vm_compute; reflexivity|].
  vm_compute. right. right. right. right. left. reflexivity.
Qed.

(** Below -1 the platform decides: at the raw code 0 the formula is -46.85,
    and the sample platform, which wraps, stores 2^32 - 46. *)
Lemma stored_reading_on_wrapping_platform_computed :
  (spec_formula 0 <= -1)%Q
  /\ @temperature_reading_of sample_platform 0 = 2 ^ 32 - 46.
Proof. split; [vm_compute; discriminate | vm_compute; reflexivity]. Qed.

(** The amended C10 at the raw code 0x6A89. *)
Lemma stored_reading_is_truncated_formula_witness :
  let w := sample_world waitForI2CReadTransfer (sample_ble true true true) in
  let evt := external_signal 4 in
  let r := sample_returns 27273 0 in
  let raw := to_uint16 (I2C_Get_Data r) in
  let stored := @temperature_reading_of sample_platform raw in
  let w' := @dispatch sample_platform w evt r in
  nextState w = waitForI2CReadTransfer
  /\ preconditions evt (bleData w) = true
  /\ bit_is_set (extsignals evt) I2C_TRANSFER_COMPLETE_BIT_POS = true
  /\ In (displayPrintf DISPLAY_ROW_TEMPVALUE "Temp=%d" [stored])
        (new_calls w w')
  /\ htm_temperature_buffer w' = encode_reading (flags w) stored
  /\ ((-1 < spec_formula raw)%Q ->
      stored = Qtruncate (spec_formula raw) /\ 0 <= stored <= 128)
  /\ ((-1 < spec_formula raw)%Q -> (spec_formula raw < 0)%Q -> stored = 0)
  /\ ((spec_formula raw <= -1)%Q ->
      stored =
      to_uint32
        (@double_to_uint32_unrepresentable sample_platform (conversion raw)))
  /\ (raw = 27273 -> stored = 26).
Proof.
  cbv zeta.
  split; [reflexivity|]. split; [reflexivity|]. split; [reflexivity|].
  exact (@stored_reading_is_truncated_formula sample_platform
           (sample_world waitForI2CReadTransfer (sample_ble true true true))
           (external_signal 4) (sample_returns 27273 0)
           eq_refl eq_refl eq_refl).
Defined.

End ConcreteReadings.

Section ConcreteDiscovery.
Import Ble Discovery.

(** C8 in state 3, the characteristic discovery of the thermometer under
    way. *)
Lemma disconnect_during_discovery_witness :
  let w := Discovery.mkWorld State_3 (sample_ble true true false) [] in
  In (nextState w) mid_discovery
  /\ @dispatch sample_platform w (mkMsg sl_bt_evt_connection_closed_id 0) 0
     = w
  /\ (forall inputs : list (sl_bt_msg_t * Z),
        Forall (fun i =>
                  header (fst i) <> sl_bt_evt_gatt_procedure_completed_id)
               inputs ->
        snd (@run sample_platform w inputs) = w
        /\ Forall (fun s => s = nextState w)
                  (fst (@run sample_platform w inputs)))
  /\ (forall y sc',
        nextState
          (@dispatch sample_platform w
             (mkMsg sl_bt_evt_gatt_procedure_completed_id y) sc')
        = spec_next (nextState w))
  /\ (forall (v : world) (y sc' : Z),
        nextState
          (@dispatch sample_platform v
             (mkMsg sl_bt_evt_connection_closed_id y) sc')
        = if state_number (nextState v) =? 7 then State_1 else nextState v).
Proof.
  cbv zeta.
  assert (Hmid :
    In (nextState (Discovery.mkWorld State_3 (sample_ble true true false) []))
       mid_discovery) by (right; left; reflexivity).
  split; [exact Hmid|].
  exact (@disconnect_during_discovery_is_ignored sample_platform
           (Discovery.mkWorld State_3 (sample_ble true true false) [])
           0 0 Hmid).
Defined.

End ConcreteDiscovery.

(** ** More on the scheduler *)

Section SchedulerExtras.
Import CInt Scheduler Observe.

Lemma set_bit_testbit (x pos i : Z) :
  0 <= pos < 32 -> 0 <= i ->
  Z.testbit (set_bit x pos) i = Z.testbit x i || (i =? pos).
Proof.
  intros Hpos Hi. unfold set_bit. rewrite one_shifted by exact Hpos.
  rewrite Z.lor_spec, Z.pow2_bits_eqb by lia.
  rewrite (Z.eqb_sym pos i). reflexivity.
Qed.

Lemma set_bit_is_uint32 (x pos : Z) :
  is_uint32 x -> 0 <= pos < 32 -> is_uint32 (set_bit x pos).
Proof.
  intros Hx Hpos. apply is_uint32_of_bits.
  - unfold set_bit. apply Z.lor_nonneg. split; [apply Hx|].
    rewrite one_shifted by exact Hpos. apply Z.pow_nonneg. lia.
  - intros i Hi. rewrite set_bit_testbit by lia.
    rewrite (uint32_testbit_high x i) by assumption.
    apply Z.eqb_neq. lia.
Qed.

Lemma bit_of_low (e : event_t) (pos : Z) :
  bit_of e = Some pos -> 0 <= pos < 3.
Proof.
  destruct e; cbn [bit_of]; intros Heq; inversion Heq; subst;
    unfold LETIMERUF_BIT_POS, LETIMERCOMP1_BIT_POS,
      I2C_TRANSFER_COMPLETE_BIT_POS; lia.
Qed.

Lemma setter_of_post (e : event_t) (pos : Z) (s : sched) :
  bit_of e = Some pos -> setter_of e s = post pos s.
Proof.
  destruct e; cbn [bit_of]; intros Heq; inversion Heq; reflexivity.
Qed.

(** X1.  A setter turns on the bit of its kind in [SchedulerEvents] and
    leaves every other bit; the mask stays a [uint32_t]; posting the same kind
    again before it is consumed changes nothing in the mask; and each post
    raises one signal towards the stack, the bit posted. *)
Theorem setter_posts_only_its_bit :
  forall (e : event_t) (pos : Z) (s : sched),
    bit_of e = Some pos ->
    is_uint32 (SchedulerEvents s) ->
    is_uint32 (SchedulerEvents (setter_of e s))
    /\ pending (SchedulerEvents (setter_of e s)) e = true
    /\ (forall i : Z, i <> pos ->
          Z.testbit (SchedulerEvents (setter_of e s)) i =
          Z.testbit (SchedulerEvents s) i)
    /\ SchedulerEvents (setter_of e (setter_of e s)) =
       SchedulerEvents (setter_of e s)
    /\ raised (setter_of e (setter_of e s)) =
       raised s ++ [sl_bt_external_signal (Z.shiftl 1 pos);
                    sl_bt_external_signal (Z.shiftl 1 pos)].
Proof.
  intros e pos s Hbit Hs.
  pose proof (bit_of_low e pos Hbit) as Hpos.
  rewrite !(setter_of_post e pos _ Hbit).
  split; [| split; [| split; [| split]]].
  - cbn [post SchedulerEvents]. apply set_bit_is_uint32; [exact Hs | lia].
  - unfold pending. rewrite Hbit. cbn [post SchedulerEvents].
    rewrite set_bit_testbit by lia. rewrite Z.eqb_refl. apply orb_true_r.
  - intros i Hi. cbn [post SchedulerEvents].
    destruct (Z.ltb_spec i 0) as [Hneg|Hnonneg].
    + rewrite !Z.testbit_neg_r by exact Hneg. reflexivity.
    + rewrite set_bit_testbit by lia.
      replace (i =? pos) with false by (symmetry; apply Z.eqb_neq; exact Hi).
      apply orb_false_r.
  - apply post_twice.
  - cbn [post raised]. rewrite <- app_assoc. reflexivity.
Qed.

(** X1 for the compare-match setter on the mask 0b100. *)
Lemma setter_posts_only_its_bit_witness :
  let s := mkSched 4 [] in
  bit_of EVENT_LETIMER_COMP1 = Some 1
  /\ is_uint32 (SchedulerEvents s)
  /\ is_uint32 (SchedulerEvents (setter_of EVENT_LETIMER_COMP1 s))
  /\ pending (SchedulerEvents (setter_of EVENT_LETIMER_COMP1 s))
       EVENT_LETIMER_COMP1 = true
  /\ (forall i : Z, i <> 1 ->
        Z.testbit (SchedulerEvents (setter_of EVENT_LETIMER_COMP1 s)) i =
        Z.testbit (SchedulerEvents s) i)
  /\ SchedulerEvents
       (setter_of EVENT_LETIMER_COMP1 (setter_of EVENT_LETIMER_COMP1 s)) =
     SchedulerEvents (setter_of EVENT_LETIMER_COMP1 s)
  /\ raised (setter_of EVENT_LETIMER_COMP1 (setter_of EVENT_LETIMER_COMP1 s)) =
     raised s ++ [sl_bt_external_signal (Z.shiftl 1 1);
                  sl_bt_external_signal (Z.shiftl 1 1)].
Proof.
  cbv zeta.
  assert (Hs : is_uint32 (SchedulerEvents (mkSched 4 [])))
    by (unfold is_uint32, UINT32_MOD; cbn; lia).
  split; [reflexivity|]. split; [exact Hs|].
  exact (setter_posts_only_its_bit EVENT_LETIMER_COMP1 1 (mkSched 4 [])
           eq_refl Hs).
Defined.

(** One call of [getNextEvent] in terms of the three low bits. *)
Lemma getNextEvent_step (m : Z) :
  is_uint32 m ->
  is_uint32 (snd (getNextEvent m))
  /\ fst (getNextEvent m) =
     (if Z.testbit m 2 then EVENT_I2C_TRANSFER_COMPLETE
      else if Z.testbit m 1 then EVENT_LETIMER_COMP1
      else if Z.testbit m 0 then EVENT_LETIMER_UF
      else EVENT_NONE)
  /\ Z.testbit (snd (getNextEvent m)) 2 = false
  /\ Z.testbit (snd (getNextEvent m)) 1 = Z.testbit m 2 && Z.testbit m 1
  /\ Z.testbit (snd (getNextEvent m)) 0 =
     (Z.testbit m 2 || Z.testbit m 1) && Z.testbit m 0
  /\ forall i, 3 <= i ->
       Z.testbit (snd (getNextEvent m)) i = Z.testbit m i.
Proof.
  intros Hm. cbn [getNextEvent fst snd].
  split; [apply clear_event_is_uint32; exact Hm|].
  split; [apply choose_event_bits|].
  assert (Hhigh : forall i, 3 <= i ->
            Z.testbit (clear_event (choose_event m) m) i = Z.testbit m i).
  { intros i Hi. rewrite clear_event_testbit by exact Hm.
    destruct (bit_of (choose_event m)) as [pos|] eqn:Hpos; [|reflexivity].
    apply bit_of_low in Hpos.
    replace (i =? pos) with false by (symmetry; apply Z.eqb_neq; lia).
    reflexivity. }
  assert (Hlow :
    Z.testbit (clear_event (choose_event m) m) 2 = false
    /\ Z.testbit (clear_event (choose_event m) m) 1 =
       Z.testbit m 2 && Z.testbit m 1
    /\ Z.testbit (clear_event (choose_event m) m) 0 =
       (Z.testbit m 2 || Z.testbit m 1) && Z.testbit m 0).
  { rewrite !clear_event_testbit by exact Hm.
    rewrite choose_event_bits.
    destruct (Z.testbit m 2), (Z.testbit m 1), (Z.testbit m 0);
      cbn [bit_of]; repeat split; reflexivity. }
  destruct Hlow as (L2 & L1 & L0).
  split; [exact L2|]. split; [exact L1|]. split; [exact L0 | exact Hhigh].
Qed.

Lemma getNextEvent_nothing_pending (m : Z) :
  Z.testbit m 2 = false -> Z.testbit m 1 = false -> Z.testbit m 0 = false ->
  getNextEvent m = (EVENT_NONE, m).
Proof.
  intros H2 H1 H0. unfold getNextEvent.
  rewrite choose_event_bits, H2, H1, H0. reflexivity.
Qed.

Lemma consume_n_nothing_pending (n : nat) (m : Z) :
  Z.testbit m 2 = false -> Z.testbit m 1 = false -> Z.testbit m 0 = false ->
  consume_n n m = (repeat EVENT_NONE n, m).
Proof.
  intros H2 H1 H0. induction n as [|k IH]; [reflexivity|].
  cbn [consume_n repeat].
  rewrite (getNextEvent_nothing_pending m H2 H1 H0), IH. reflexivity.
Qed.

(** X2.  Draining: three consecutive calls of [getNextEvent] return the
    pending kinds, each once and in priority order, then the sentinel; the
    mask is left with the three low bits off and every other bit as it was;
    from then on every call returns the sentinel and leaves the mask. *)
Theorem three_calls_drain_the_mask :
  forall m : Z,
    is_uint32 m ->
    fst (consume_n 3 m) =
    firstn 3 (filter (pending m) spec_priority
              ++ [EVENT_NONE; EVENT_NONE; EVENT_NONE])
    /\ (forall i : Z,
          Z.testbit (snd (consume_n 3 m)) i =
          if i <? 3 then false else Z.testbit m i)
    /\ (forall n : nat,
          consume_n n (snd (consume_n 3 m)) =
          (repeat EVENT_NONE n, snd (consume_n 3 m))).
Proof.
  intros m Hm.
  destruct (getNextEvent_step m Hm) as (U1 & E1 & A2 & A1 & A0 & AH).
  destruct (getNextEvent_step _ U1) as (U2 & E2 & B2 & B1 & B0 & BH).
  destruct (getNextEvent_step _ U2) as (U3 & E3 & C2 & C1 & C0 & CH).
  assert (Hshape : consume_n 3 m =
            ([fst (getNextEvent m);
              fst (getNextEvent (snd (getNextEvent m)));
              fst (getNextEvent (snd (getNextEvent (snd (getNextEvent m)))))],
             snd (getNextEvent (snd (getNextEvent (snd (getNextEvent m))))))).
  { cbn [consume_n].
    destruct (getNextEvent m) as [e1 m1]. cbn [fst snd].
    destruct (getNextEvent m1) as [e2 m2]. cbn [fst snd].
    destruct (getNextEvent m2) as [e3 m3]. reflexivity. }
  rewrite Hshape. cbn [fst snd].
  set (m3 := snd (getNextEvent (snd (getNextEvent (snd (getNextEvent m)))))) in *.
  rewrite A2, A1 in B1. rewrite A2, A1, A0 in B0. rewrite A2, A1, A0 in E2.
  rewrite B2, B1 in C1. rewrite B2, B1, B0 in C0. rewrite B2, B1, B0 in E3.
  fold m3 in C2, C1, C0.
  assert (Z2 : Z.testbit m3 2 = false) by exact C2.
  assert (Z1 : Z.testbit m3 1 = false).
  { rewrite C1. reflexivity. }
  assert (Z0 : Z.testbit m3 0 = false).
  { rewrite C0.
    destruct (Z.testbit m 2), (Z.testbit m 1), (Z.testbit m 0); reflexivity. }
  split; [| split].
  - rewrite E1, E2, E3. unfold spec_priority, pending. cbn [filter bit_of].
    unfold LETIMERUF_BIT_POS, LETIMERCOMP1_BIT_POS,
      I2C_TRANSFER_COMPLETE_BIT_POS.
    destruct (Z.testbit m 2), (Z.testbit m 1), (Z.testbit m 0); reflexivity.
  - intros i. destruct (Z.ltb_spec i 3) as [Hlow|Hhigh].
    + destruct (Z.ltb_spec i 0) as [Hneg|Hnonneg];
        [apply Z.testbit_neg_r; exact Hneg|].
      assert (Hi : i = 0 \/ i = 1 \/ i = 2) by lia.
      destruct Hi as [->|[->| ->]]; assumption.
    + unfold m3. rewrite CH, BH, AH by exact Hhigh. reflexivity.
  - intros n. apply consume_n_nothing_pending; assumption.
Qed.

(** X2 on the mask 0b1101: two pending kinds and a bit outside the three. *)
Lemma three_calls_drain_witness :
  is_uint32 13
  /\ fst (consume_n 3 13) =
     firstn 3 (filter (pending 13) spec_priority
               ++ [EVENT_NONE; EVENT_NONE; EVENT_NONE])
  /\ (forall i : Z,
        Z.testbit (snd (consume_n 3 13)) i =
        if i <? 3 then false else Z.testbit 13 i)
  /\ (forall n : nat,
        consume_n n (snd (consume_n 3 13)) =
        (repeat EVENT_NONE n, snd (consume_n 3 13))).
Proof.
  assert (Hm : is_uint32 13) by (unfold is_uint32, UINT32_MOD; lia).
  split; [exact Hm|].
  exact (three_calls_drain_the_mask 13 Hm).
Defined.

(** X3.  Post and consume undo each other: when none of the three kinds is
    pending, posting a kind with its setter and calling [getNextEvent] returns
    that kind and gives the mask back as it was before the post. *)
Theorem post_then_consume_round_trip :
  forall (e : event_t) (pos : Z) (s : sched),
    bit_of e = Some pos ->
    is_uint32 (SchedulerEvents s) ->
    (forall e', In e' spec_priority -> pending (SchedulerEvents s) e' = false) ->
    fst (consume (setter_of e s)) = e
    /\ SchedulerEvents (snd (consume (setter_of e s))) = SchedulerEvents s.
Proof.
  intros e pos s Hbit Hs Hnone.
  pose proof (bit_of_low e pos Hbit) as Hpos.
  rewrite (setter_of_post e pos s Hbit).
  assert (H2 : Z.testbit (SchedulerEvents s) 2 = false)
    by (apply (Hnone EVENT_I2C_TRANSFER_COMPLETE); cbn; tauto).
  assert (H1 : Z.testbit (SchedulerEvents s) 1 = false)
    by (apply (Hnone EVENT_LETIMER_COMP1); cbn; tauto).
  assert (H0 : Z.testbit (SchedulerEvents s) 0 = false)
    by (apply (Hnone EVENT_LETIMER_UF); cbn; tauto).
  set (m := SchedulerEvents s) in *.
  assert (Hposted : is_uint32 (set_bit m pos))
    by (apply set_bit_is_uint32; [exact Hs | lia]).
  unfold consume. cbn [post SchedulerEvents raised]. fold m.
  cbn [getNextEvent fst snd].
  assert (Hchoose : choose_event (set_bit m pos) = e).
  { rewrite choose_event_bits. rewrite !set_bit_testbit by lia.
    rewrite H2, H1, H0. cbn [orb].
    destruct e; cbn [bit_of] in Hbit; inversion Hbit; subst pos; reflexivity. }
  rewrite Hchoose. split; [reflexivity|].
  cbn [snd SchedulerEvents]. fold m.
  apply Z.bits_inj'. intros i Hi.
  rewrite clear_event_testbit by exact Hposted. rewrite Hbit.
  rewrite set_bit_testbit by lia.
  destruct (Z.eqb_spec i pos) as [->|Hne].
  - assert (Hcase : pos = 0 \/ pos = 1 \/ pos = 2) by lia.
    destruct Hcase as [->|[->| ->]]; symmetry; assumption.
  - apply orb_false_r.
Qed.

(** X3 for the underflow setter on a mask with bits outside the three
    only. *)
Lemma post_then_consume_round_trip_witness :
  let s := mkSched 24 [] in
  bit_of EVENT_LETIMER_UF = Some 0
  /\ is_uint32 (SchedulerEvents s)
  /\ (forall e', In e' spec_priority -> pending (SchedulerEvents s) e' = false)
  /\ fst (consume (setter_of EVENT_LETIMER_UF s)) = EVENT_LETIMER_UF
  /\ SchedulerEvents (snd (consume (setter_of EVENT_LETIMER_UF s))) =
     SchedulerEvents s.
Proof.
  cbv zeta.
  assert (Hs : is_uint32 (SchedulerEvents (mkSched 24 [])))
    by (unfold is_uint32, UINT32_MOD; cbn; lia).
  assert (Hnone : forall e', In e' spec_priority ->
            pending (SchedulerEvents (mkSched 24 [])) e' = false).
  { intros e' He. cbn in He.
    destruct He as [<-|[<-|[<-|[]]]]; reflexivity. }
  split; [reflexivity|]. split; [exact Hs|]. split; [exact Hnone|].
  exact (post_then_consume_round_trip EVENT_LETIMER_UF 0 (mkSched 24 [])
           eq_refl Hs Hnone).
Defined.

End SchedulerExtras.

(** ** More on the acquisition machine *)

Section AcquisitionExtras.
Import CInt Scheduler Ble Si7021 StateM Acquisition Observe ObservePublication.
Context {platform : Platform}.

Ltac unfold_dispatch :=
  cbv [dispatch exec temperature_state_machine_bt switch_currentState
       read_transfer_complete bind ret gets modify when_
       Acquisition.set_nextState Acquisition.set_bleData set_htm_temperature
       Acquisition.do_call mark_indication_in_flight send_condition
       Acquisition.nextState Acquisition.bleData htm_temperature_buffer
       htm_temperature_flt flags Acquisition.calls fst snd
       connection_open ok_to_send_htm_indications indication_in_flight
       isIndicationOnButton connectionHandle serviceHandle
       characteristicHandle serviceHandleHTM characteristicHandleHTM
       serviceHandleButton characteristicHandleButton].

Lemma preconditions_flags (evt : sl_bt_msg_t) (b : ble_data_struct_t) :
  preconditions evt b = true ->
  connection_open b = true /\ ok_to_send_htm_indications b = true.
Proof. intros Hpre. apply preconditions_true in Hpre. tauto. Qed.

(** An entered dispatch without the trigger of the state changes nothing. *)
Lemma dispatch_untriggered (w : world) (evt : sl_bt_msg_t) (r : returns) :
  preconditions evt (bleData w) = true ->
  bit_is_set (extsignals evt) (spec_trigger (nextState w)) = false ->
  dispatch w evt r = w.
Proof.
  intros Hpre Hbit. destruct (preconditions_flags _ _ Hpre) as [Hopen Harmed].
  destruct w as [s b buf flt fl cs].
  destruct b as [op armed inflight onbutton ch sh chh shh chhh shb chb].
  cbn [Acquisition.bleData Acquisition.nextState connection_open
       ok_to_send_htm_indications] in *. subst op armed.
  destruct s; cbv [spec_trigger] in Hbit; unfold_dispatch;
    rewrite Hpre, Hbit; reflexivity.
Qed.

(** A triggered dispatch in one of the four early states. *)
Lemma dispatch_early (w : world) (evt : sl_bt_msg_t) (r : returns) :
  preconditions evt (bleData w) = true ->
  bit_is_set (extsignals evt) (spec_trigger (nextState w)) = true ->
  nextState w <> waitForI2CReadTransfer ->
  dispatch w evt r =
  mkWorld (spec_next (nextState w)) (bleData w) (htm_temperature_buffer w)
    (htm_temperature_flt w) (flags w)
    (calls w ++ transition_calls (nextState w)).
Proof.
  intros Hpre Hbit Hearly.
  destruct (preconditions_flags _ _ Hpre) as [Hopen Harmed].
  destruct w as [s b buf flt fl cs].
  destruct b as [op armed inflight onbutton ch sh chh shh chhh shb chb].
  cbn [Acquisition.bleData Acquisition.nextState connection_open
       ok_to_send_htm_indications] in *. subst op armed.
  destruct s; try (exfalso; apply Hearly; reflexivity);
    cbv [spec_trigger] in Hbit; unfold_dispatch; rewrite Hpre, Hbit;
    cbv [spec_next transition_calls]; cbn [negb orb];
    rewrite <- ?app_assoc; reflexivity.
Qed.

(** X4.  In the four states before AwaitingReadComplete an entered
    dispatch makes exactly the calls of its row when the trigger bit of the
    state is present (power on and an 80 ms wait; the bus write; interrupt
    off and a 10.8 ms wait; the bus read) and no call at all when it is
    absent, whatever other bits the event carries; it leaves the BLE data,
    the reading buffer and the flags byte, and it publishes nothing. *)
Theorem early_transitions_make_the_calls_of_their_row :
  forall (w : world) (evt : sl_bt_msg_t) (r : returns),
    preconditions evt (bleData w) = true ->
    nextState w <> waitForI2CReadTransfer ->
    let w' := dispatch w evt r in
    bleData w' = bleData w
    /\ htm_temperature_buffer w' = htm_temperature_buffer w
    /\ htm_temperature_flt w' = htm_temperature_flt w
    /\ flags w' = flags w
    /\ new_calls w w' =
       (if bit_is_set (extsignals evt) (spec_trigger (nextState w))
        then transition_calls (nextState w)
        else [])
    /\ filter is_publication (new_calls w w') = [].
Proof.
  intros w evt r Hpre Hearly w'. subst w'.
  destruct (bit_is_set (extsignals evt) (spec_trigger (nextState w))) eqn:Hbit.
  - rewrite (dispatch_early w evt r Hpre Hbit Hearly).
    cbn [Acquisition.bleData htm_temperature_buffer htm_temperature_flt flags].
    rewrite (new_calls_app w _ (transition_calls (nextState w)))
      by reflexivity.
    repeat split. destruct (nextState w); reflexivity.
  - rewrite (dispatch_untriggered w evt r Hpre Hbit).
    rewrite (new_calls_app w w []) by (rewrite app_nil_r; reflexivity).
    repeat split.
Qed.

Lemma send_condition_with_statuses (b : ble_data_struct_t) (r : returns)
    (a c : Z) :
  send_condition b (with_statuses r a c) = send_condition b r.
Proof. reflexivity. Qed.


(** The worlds that two dispatches leave when their returns differ in the
    status codes only: equal, or the read-complete worlds. *)
Lemma dispatch_statuses (w : world) (evt : sl_bt_msg_t) (r : returns)
    (a b c d : Z) :
  dispatch w evt (with_statuses r a b) = dispatch w evt (with_statuses r c d)
  \/ (nextState w = waitForI2CReadTransfer
      /\ preconditions evt (bleData w) = true
      /\ bit_is_set (extsignals evt) I2C_TRANSFER_COMPLETE_BIT_POS = true).
Proof.
  destruct (preconditions evt (bleData w)) eqn:Hpre.
  - destruct (bit_is_set (extsignals evt) (spec_trigger (nextState w)))
      eqn:Hbit.
    + destruct (nextState w) eqn:Hstate;
        try (left; rewrite !dispatch_early
               by (try assumption; rewrite Hstate; solve [assumption | discriminate]);
             reflexivity).
      right. repeat split. exact Hbit.
    + left. rewrite !dispatch_untriggered by assumption. reflexivity.
  - left. rewrite !dispatch_without_preconditions by assumption. reflexivity.
Qed.

(** X6.  The status codes that the stack returns decide nothing but the
    log: two dispatches that differ only in those codes leave the same state,
    BLE data and reading buffer and make the same calls apart from
    [LOG_ERROR]; the status of the attribute write is not looked at at
    all. *)
Theorem statuses_decide_nothing_but_the_log :
  forall (w : world) (evt : sl_bt_msg_t) (r : returns) (a b c d : Z),
    let w1 := dispatch w evt (with_statuses r a b) in
    let w2 := dispatch w evt (with_statuses r c d) in
    nextState w1 = nextState w2
    /\ bleData w1 = bleData w2
    /\ htm_temperature_buffer w1 = htm_temperature_buffer w2
    /\ htm_temperature_flt w1 = htm_temperature_flt w2
    /\ filter (fun x => negb (is_LOG_ERROR x)) (new_calls w w1) =
       filter (fun x => negb (is_LOG_ERROR x)) (new_calls w w2)
    /\ dispatch w evt (with_statuses r a b) =
       dispatch w evt (with_statuses r c b).
Proof.
  intros w evt r a b c d w1 w2. subst w1 w2.
  assert (Hwrite : dispatch w evt (with_statuses r a b) =
                   dispatch w evt (with_statuses r c b)).
  { destruct (dispatch_statuses w evt r a b c b)
      as [Heq|(Hstate & Hpre & Hbit)]; [exact Heq|].
    rewrite !(dispatch_read_complete w evt _ Hstate Hpre Hbit). reflexivity. }
  split; [| split; [| split; [| split; [| split; [| exact Hwrite]]]]];
    destruct (dispatch_statuses w evt r a b c d)
      as [Heq|(Hstate & Hpre & Hbit)];
    try (rewrite Heq; reflexivity);
    rewrite !(dispatch_read_complete w evt _ Hstate Hpre Hbit);
    cbn [Acquisition.nextState Acquisition.bleData htm_temperature_buffer
         htm_temperature_flt];
    rewrite ?send_condition_with_statuses;
    cbn [with_statuses I2C_Get_Data send_indication_status];
    try reflexivity.
  erewrite !new_calls_app by reflexivity.
  destruct (send_condition (bleData w) r);
    [destruct (negb (b =? SL_STATUS_OK)), (negb (d =? SL_STATUS_OK))|];
    reflexivity.
Qed.

Lemma mark_when_in_flight (b : ble_data_struct_t) (r : returns) :
  send_condition b r = true -> mark_indication_in_flight b = b.
Proof.
  unfold send_condition. destruct b as [op armed inflight ? ? ? ? ? ? ? ?].
  cbn [indication_in_flight mark_indication_in_flight connection_open
       ok_to_send_htm_indications isIndicationOnButton connectionHandle
       serviceHandle characteristicHandle serviceHandleHTM
       characteristicHandleHTM serviceHandleButton
       characteristicHandleButton].
  destruct inflight; [reflexivity | discriminate].
Qed.

Lemma dispatch_bleData (w : world) (evt : sl_bt_msg_t) (r : returns) :
  bleData (dispatch w evt r) = bleData w.
Proof.
  destruct (preconditions evt (bleData w)) eqn:Hpre.
  - destruct (bit_is_set (extsignals evt) (spec_trigger (nextState w)))
      eqn:Hbit.
    + destruct (nextState w) eqn:Hstate;
        try (rewrite dispatch_early
               by (try assumption; rewrite Hstate; solve [assumption | discriminate]);
             reflexivity).
      rewrite (dispatch_read_complete w evt r Hstate Hpre Hbit).
      cbn [Acquisition.bleData].
      destruct (send_condition (bleData w) r) eqn:Hsend; [|reflexivity].
      apply (mark_when_in_flight _ r Hsend).
    + rewrite dispatch_untriggered by assumption. reflexivity.
  - rewrite dispatch_without_preconditions by assumption. reflexivity.
Qed.

Lemma acquisition_run_cons (w : world) (evt : sl_bt_msg_t) (r : returns)
    (rest : list (sl_bt_msg_t * returns)) :
  fst (run w ((evt, r) :: rest)) =
  nextState (dispatch w evt r) :: fst (run (dispatch w evt r) rest)
  /\ snd (run w ((evt, r) :: rest)) = snd (run (dispatch w evt r) rest).
Proof.
  cbn [run]. destruct (run (dispatch w evt r) rest). split; reflexivity.
Qed.

(** X7.  No run of the acquisition machine changes any field of the BLE
    data: the only assignment, [indication_in_flight = true], is reached when
    the flag is already set. *)
Theorem acquisition_never_changes_the_ble_data :
  forall (inputs : list (sl_bt_msg_t * returns)) (w : world),
    bleData (snd (run w inputs)) = bleData w.
Proof.
  intros inputs. induction inputs as [|[evt r] rest IH]; intros w;
    [reflexivity|].
  destruct (acquisition_run_cons w evt r rest) as [_ ->].
  rewrite IH. apply dispatch_bleData.
Qed.

(** X8.  With no indication in flight a dispatch never calls
    [sl_bt_gatt_server_send_indication], whatever the state, the event and
    the queue depth, and the flag is still off afterwards. *)
Theorem nothing_in_flight_nothing_sent :
  forall (w : world) (evt : sl_bt_msg_t) (r : returns),
    indication_in_flight (bleData w) = false ->
    filter is_send_indication (new_calls w (dispatch w evt r)) = []
    /\ indication_in_flight (bleData (dispatch w evt r)) = false.
Proof.
  intros w evt r Hidle. split; [| rewrite dispatch_bleData; exact Hidle].
  destruct (preconditions evt (bleData w)) eqn:Hpre.
  - destruct (bit_is_set (extsignals evt) (spec_trigger (nextState w)))
      eqn:Hbit.
    + destruct (nextState w) eqn:Hstate;
        try (rewrite dispatch_early
               by (try assumption; rewrite Hstate;
                   solve [assumption | discriminate]);
             erewrite new_calls_app by reflexivity;
             rewrite Hstate; reflexivity).
      rewrite (dispatch_read_complete w evt r Hstate Hpre Hbit).
      erewrite new_calls_app by reflexivity.
      unfold send_condition. rewrite Hidle. reflexivity.
    + rewrite dispatch_untriggered by assumption.
      rewrite (new_calls_app w w []) by (rewrite app_nil_r; reflexivity).
      reflexivity.
  - rewrite dispatch_without_preconditions by assumption.
    erewrite new_calls_app by reflexivity.
    destruct (negb _ || negb _); reflexivity.
Qed.

Lemma sensor_after_app (p : bool) (l1 l2 : list call) :
  sensor_after p (l1 ++ l2) = sensor_after (sensor_after p l1) l2.
Proof. unfold sensor_after. apply fold_left_app. Qed.

(** The sensor is powered exactly when the machine is not in Idle: one
    dispatch keeps that. *)
Lemma dispatch_keeps_sensor_invariant (w : world) (evt : sl_bt_msg_t)
    (r : returns) :
  sensor_after false (calls w) = negb (is_idle (nextState w)) ->
  sensor_after false (calls (dispatch w evt r)) =
  negb (is_idle (nextState (dispatch w evt r))).
Proof.
  intros Hinv.
  destruct (preconditions evt (bleData w)) eqn:Hpre.
  - destruct (bit_is_set (extsignals evt) (spec_trigger (nextState w)))
      eqn:Hbit.
    + destruct (nextState w) eqn:Hstate;
        try (rewrite dispatch_early
               by (try assumption; rewrite Hstate;
                   solve [assumption | discriminate]);
             cbn [Acquisition.calls Acquisition.nextState];
             rewrite sensor_after_app, Hinv, Hstate; reflexivity).
      rewrite (dispatch_read_complete w evt r Hstate Hpre Hbit).
      cbn [Acquisition.calls Acquisition.nextState].
      rewrite sensor_after_app, Hinv.
      destruct (send_condition (bleData w) r);
        [destruct (negb (send_indication_status r =? SL_STATUS_OK))|];
        reflexivity.
    + rewrite dispatch_untriggered by assumption. exact Hinv.
  - rewrite dispatch_without_preconditions by assumption.
    cbn [Acquisition.calls Acquisition.nextState].
    rewrite sensor_after_app, Hinv.
    destruct (negb _ || negb _); reflexivity.
Qed.

(** X9.  Over every run of events the sensor is powered exactly while the
    machine is outside Idle: if the last of [si7021TurnOn] and
    [si7021TurnOff] in the trace agrees with the state before the run, it
    agrees with the state after it, also when the preconditions fail on the
    way. *)
Theorem sensor_is_powered_exactly_outside_idle :
  forall (inputs : list (sl_bt_msg_t * returns)) (w : world),
    sensor_after false (calls w) = negb (is_idle (nextState w)) ->
    sensor_after false (calls (snd (run w inputs))) =
    negb (is_idle (nextState (snd (run w inputs)))).
Proof.
  intros inputs. induction inputs as [|[evt r] rest IH]; intros w Hinv;
    [exact Hinv|].
  destruct (acquisition_run_cons w evt r rest) as [_ ->].
  apply IH, dispatch_keeps_sensor_invariant, Hinv.
Qed.

(** One dispatch from a state that is at least two steps from publishing:
    the trace grows by calls that publish nothing, and the machine comes at
    most one step closer. *)
Lemma dispatch_far_from_publishing (w : world) (evt : sl_bt_msg_t)
    (r : returns) :
  (2 <= steps_to_publish (nextState w))%nat ->
  exists l,
    calls (dispatch w evt r) = calls w ++ l
    /\ filter is_publication l = []
    /\ (steps_to_publish (nextState w) <=
        S (steps_to_publish (nextState (dispatch w evt r))))%nat.
Proof.
  intros Hfar.
  assert (Hearly : nextState w <> waitForI2CReadTransfer).
  { intros Heq. rewrite Heq in Hfar. cbn in Hfar. lia. }
  destruct (preconditions evt (bleData w)) eqn:Hpre.
  - destruct (bit_is_set (extsignals evt) (spec_trigger (nextState w)))
      eqn:Hbit.
    + rewrite (dispatch_early w evt r Hpre Hbit Hearly).
      exists (transition_calls (nextState w)).
      cbn [Acquisition.calls Acquisition.nextState].
      destruct (nextState w); cbn; repeat split; lia.
    + rewrite dispatch_untriggered by assumption.
      exists []. rewrite app_nil_r. repeat split. lia.
  - rewrite dispatch_without_preconditions by assumption.
    eexists. cbn [Acquisition.calls Acquisition.nextState].
    split; [reflexivity|]. split; [| lia].
    destruct (negb _ || negb _); reflexivity.
Qed.

Lemma run_far_from_publishing (inputs : list (sl_bt_msg_t * returns)) :
  forall w : world,
    (List.length inputs < steps_to_publish (nextState w))%nat ->
    exists l,
      calls (snd (run w inputs)) = calls w ++ l
      /\ filter is_publication l = [].
Proof.
  induction inputs as [|[evt r] rest IH]; intros w Hlen.
  - exists []. rewrite app_nil_r. split; reflexivity.
  - cbn [List.length] in Hlen.
    destruct (acquisition_run_cons w evt r rest) as [_ ->].
    destruct (dispatch_far_from_publishing w evt r ltac:(lia))
      as (l1 & Hcalls1 & Hquiet1 & Hsteps).
    destruct (IH (dispatch w evt r) ltac:(lia)) as (l2 & Hcalls2 & Hquiet2).
    exists (l1 ++ l2). rewrite Hcalls2, Hcalls1, app_assoc.
    split; [reflexivity|].
    rewrite filter_app, Hquiet1, Hquiet2. reflexivity.
Qed.

(** X10.  A reading is published only at the end of a cycle: a run of
    fewer dispatches than the state is away from the end of the read-complete
    transition (five from Idle) writes no attribute, sends no indication and
    enqueues nothing. *)
Theorem no_publication_before_the_cycle_is_through :
  forall (inputs : list (sl_bt_msg_t * returns)) (w : world),
    (List.length inputs < steps_to_publish (nextState w))%nat ->
    filter is_publication (new_calls w (snd (run w inputs))) = [].
Proof.
  intros inputs w Hlen.
  destruct (run_far_from_publishing inputs w Hlen) as (l & Hcalls & Hquiet).
  rewrite (new_calls_app w _ l Hcalls). exact Hquiet.
Qed.

Lemma posted_signal_bit (pos p : Z) :
  0 <= pos < 3 -> 0 <= p < 3 ->
  bit_is_set (Z.shiftl 1 pos) p = (p =? pos).
Proof.
  intros Hpos Hp. rewrite bit_is_set_testbit by lia.
  rewrite Z.shiftl_1_l, Z.pow2_bits_eqb by lia. apply Z.eqb_sym.
Qed.

(** X11.  A setter and the machine fit: the signal that the setter of a
    kind raises is the bit it posts, and delivered as an external-signal
    event it moves the machine on exactly in the states whose trigger is that
    bit, and leaves the state otherwise. *)
Theorem posted_signal_moves_the_machine_in_its_states_only :
  forall (e : event_t) (pos : Z) (s : sched) (w : world) (r : returns),
    bit_of e = Some pos ->
    connection_open (bleData w) = true ->
    ok_to_send_htm_indications (bleData w) = true ->
    raised (setter_of e s) =
    raised s ++ [sl_bt_external_signal (Z.shiftl 1 pos)]
    /\ nextState (dispatch w (external_signal (Z.shiftl 1 pos)) r) =
       (if spec_trigger (nextState w) =? pos
        then spec_next (nextState w)
        else nextState w).
Proof.
  intros e pos s w r Hbit Hopen Harmed.
  assert (Hpos : 0 <= pos < 3).
  { destruct e; cbn [bit_of] in Hbit; inversion Hbit; subst;
      unfold LETIMERUF_BIT_POS, LETIMERCOMP1_BIT_POS,
        I2C_TRANSFER_COMPLETE_BIT_POS; lia. }
  assert (Htrig : 0 <= spec_trigger (nextState w) < 3).
  { destruct (nextState w); cbn [spec_trigger];
      unfold LETIMERUF_BIT_POS, LETIMERCOMP1_BIT_POS,
        I2C_TRANSFER_COMPLETE_BIT_POS; lia. }
  assert (Hpre : preconditions (external_signal (Z.shiftl 1 pos)) (bleData w)
                 = true)
    by (apply preconditions_true; repeat split; assumption).
  split.
  - destruct e; cbn [bit_of] in Hbit; inversion Hbit; reflexivity.
  - rewrite (dispatch_nextState w _ r Hpre).
    cbn [extsignals external_signal].
    rewrite posted_signal_bit by assumption. reflexivity.
Qed.

End AcquisitionExtras.

(** ** More on the conversion *)

Section ConversionExtras.
Import CInt Si7021.
Context {platform : Platform}.

(** X12.  For every 16-bit code the [double] evaluation of the
    conversion is a finite number whose integer part is the integer part of
    the exact value raw * 175.72 / 65536 - 46.85, between -46 and 128:
    rounding never moves the result across an integer. *)
Theorem double_evaluation_truncates_like_the_exact_formula :
  forall raw : Z,
    0 <= raw < 65536 ->
    truncate (conversion raw) = Some (Qtruncate (spec_formula raw))
    /\ -46 <= Qtruncate (spec_formula raw) <= 128.
Proof.
  intros raw Hraw. rewrite Qtruncate_spec_formula. split.
  - apply truncate_conversion. exact Hraw.
  - unfold exact_truncate. Z.quot_rem_to_equations. lia.
Qed.

(** X12 at the code 0x6A89. *)
Lemma double_evaluation_truncates_witness :
  0 <= 27273 < 65536
  /\ truncate (conversion 27273) = Some (Qtruncate (spec_formula 27273))
  /\ -46 <= Qtruncate (spec_formula 27273) <= 128.
Proof.
  assert (Hraw : 0 <= 27273 < 65536) by lia.
  split; [exact Hraw|].
  exact (double_evaluation_truncates_like_the_exact_formula 27273 Hraw).
Defined.

(** X13.  From the code 17474 on, where the formula is not negative, the
    stored reading does not decrease when the code increases, and it is
    below the exact value by less than one degree. *)
Theorem reading_is_monotone_and_within_one_degree :
  forall raw1 raw2 : Z,
    17474 <= raw1 ->
    raw1 <= raw2 ->
    raw2 < 65536 ->
    temperature_reading_of raw1 <= temperature_reading_of raw2
    /\ (inject_Z (temperature_reading_of raw1) <= spec_formula raw1)%Q
    /\ (spec_formula raw1 < inject_Z (temperature_reading_of raw1 + 1))%Q.
Proof.
  intros raw1 raw2 Hlow Hle Hhigh.
  assert (Habove1 : (-1 < spec_formula raw1)%Q)
    by (apply spec_formula_above_minus_one; lia).
  assert (Habove2 : (-1 < spec_formula raw2)%Q)
    by (apply spec_formula_above_minus_one; lia).
  destruct (temperature_reading_truncates raw1 ltac:(lia) Habove1) as [-> _].
  destruct (temperature_reading_truncates raw2 ltac:(lia) Habove2) as [-> _].
  rewrite !Qtruncate_spec_formula. unfold exact_truncate.
  split; [| split].
  - apply Z.quot_le_mono; lia.
  - unfold Qle, spec_formula. cbn.
    Z.quot_rem_to_equations. lia.
  - unfold Qlt, spec_formula. cbn.
    Z.quot_rem_to_equations. lia.
Qed.

End ConversionExtras.

(** ** More on the discovery machine *)

Section DiscoveryExtras.
Import Ble StateM Discovery Observe ObserveDiscovery.
Context {platform : Platform}.

Ltac unfold_discovery :=
  cbv [Discovery.dispatch exec Discovery_State_Machine log_if_failed
       bind ret gets modify when_ Discovery.set_nextState
       Discovery.set_bleData Discovery.do_call
       Discovery.nextState Discovery.bleData Discovery.calls fst snd].

Lemma skipn_length_app (cs l : list call) :
  skipn (List.length cs) (cs ++ l) = l.
Proof. rewrite skipn_app, skipn_all, Nat.sub_diag. reflexivity. Qed.

(** X14.  On a procedure-completed event each of the states 2, 3, 5 and 6
    saves the handle that the stack has just returned ([serviceHandle] or
    [characteristicHandle]) in its own field and passes that same handle to
    the one API call it makes, with the UUID of its group; state 4 changes no
    field, prints the status row and starts the button service discovery;
    state 6 also sets [isIndicationOnButton]. *)
Theorem discovery_saves_and_uses_the_returned_handle :
  forall (b : ble_data_struct_t) (cs : list call) (x sc : Z),
    let completed := mkMsg sl_bt_evt_gatt_procedure_completed_id x in
    let after := fun s => dispatch (mkWorld s b cs) completed sc in
    let api := fun s =>
      filter (fun c => negb (is_LOG_ERROR c))
             (skipn (List.length cs) (calls (after s))) in
    (serviceHandleHTM (bleData (after State_2)) = serviceHandle b
     /\ api State_2 =
        [sl_bt_gatt_discover_characteristics_by_uuid
           (connectionHandle b) (serviceHandle b) thermo_char])
    /\ (characteristicHandleHTM (bleData (after State_3)) =
        characteristicHandle b
        /\ api State_3 =
           [sl_bt_gatt_set_characteristic_notification
              (connectionHandle b) (characteristicHandle b)
              sl_bt_gatt_indication])
    /\ (bleData (after State_4) = b
        /\ api State_4 =
           [displayPrintf DISPLAY_ROW_CONNECTION "Handling Indications" [];
            sl_bt_gatt_discover_primary_services_by_uuid
              (connectionHandle b) button_service])
    /\ (serviceHandleButton (bleData (after State_5)) = serviceHandle b
        /\ api State_5 =
           [sl_bt_gatt_discover_characteristics_by_uuid
              (connectionHandle b) (serviceHandle b) button_char])
    /\ (characteristicHandleButton (bleData (after State_6)) =
        characteristicHandle b
        /\ isIndicationOnButton (bleData (after State_6)) = true
        /\ api State_6 =
           [sl_bt_gatt_set_characteristic_notification
              (connectionHandle b) (characteristicHandle b)
              sl_bt_gatt_indication]).
Proof.
  intros b cs x sc completed after api. subst api after completed.
  cbv beta.
  destruct b as [op armed inflight onbutton ch sh chh shh chhh shb chb].
  repeat split; unfold_discovery; cbn [header msg_id_eqb];
    cbv [save_serviceHandleHTM save_characteristicHandleHTM
         save_serviceHandleButton save_characteristicHandleButton
         mark_isIndicationOnButton
         connection_open ok_to_send_htm_indications indication_in_flight
         isIndicationOnButton connectionHandle serviceHandle
         characteristicHandle serviceHandleHTM characteristicHandleHTM
         serviceHandleButton characteristicHandleButton];
    destruct (negb (sc =? SL_STATUS_OK));
    cbv [Discovery.calls Discovery.bleData fst snd];
    try reflexivity;
    rewrite <- ?app_assoc; rewrite skipn_length_app; reflexivity.
Qed.


Lemma discovery_dispatch_frame (w : world) (evt : sl_bt_msg_t) (sc : Z) :
  stack_fields (bleData (dispatch w evt sc)) = stack_fields (bleData w)
  /\ implb (isIndicationOnButton (bleData w))
           (isIndicationOnButton (bleData (dispatch w evt sc))) = true.
Proof.
  destruct w as [s b cs].
  destruct b as [op armed inflight onbutton ch sh chh shh chhh shb chb].
  destruct s; unfold_discovery;
    destruct (msg_id_eqb (header evt) _);
    try destruct (negb (sc =? SL_STATUS_OK));
    cbv [stack_fields Discovery.bleData
         save_serviceHandleHTM save_characteristicHandleHTM
         save_serviceHandleButton save_characteristicHandleButton
         mark_isIndicationOnButton
         connection_open ok_to_send_htm_indications indication_in_flight
         isIndicationOnButton connectionHandle serviceHandle
         characteristicHandle serviceHandleHTM characteristicHandleHTM
         serviceHandleButton characteristicHandleButton fst snd];
    (split; [reflexivity | destruct onbutton; reflexivity]).
Qed.

(** X15.  No run of the discovery machine changes the connection flags,
    the in-flight flag, the connection handle or the two handles that the
    stack returns; and [isIndicationOnButton], once set, stays set, also
    through a disconnection and a new discovery. *)
Theorem discovery_leaves_the_stack_fields_and_keeps_the_button_flag :
  forall (inputs : list (sl_bt_msg_t * Z)) (w : world),
    stack_fields (bleData (snd (run w inputs))) = stack_fields (bleData w)
    /\ implb (isIndicationOnButton (bleData w))
             (isIndicationOnButton (bleData (snd (run w inputs)))) = true.
Proof.
  intros inputs. induction inputs as [|[evt sc] rest IH]; intros w.
  - cbn [run snd]. split; [reflexivity|].
    destruct (isIndicationOnButton (bleData w)); reflexivity.
  - destruct (discovery_run_cons w evt sc rest) as [_ ->].
    destruct (IH (dispatch w evt sc)) as [Hfields Hflag].
    destruct (discovery_dispatch_frame w evt sc) as [Hfields1 Hflag1].
    split; [rewrite Hfields; exact Hfields1|].
    destruct (isIndicationOnButton (bleData w)); [|reflexivity].
    cbn [implb] in Hflag1. rewrite Hflag1 in Hflag. exact Hflag.
Qed.

(** X16.  The status that an API call returns decides nothing but the
    log: the state, the BLE data and the calls apart from [LOG_ERROR] are the
    same for every status; a dispatch logs nothing on [SL_STATUS_OK] and at
    most once otherwise. *)
Theorem discovery_status_decides_nothing_but_the_log :
  forall (w : world) (evt : sl_bt_msg_t) (sc sc' : Z),
    nextState (dispatch w evt sc) = nextState (dispatch w evt sc')
    /\ bleData (dispatch w evt sc) = bleData (dispatch w evt sc')
    /\ filter (fun c => negb (is_LOG_ERROR c))
              (new_calls w (dispatch w evt sc)) =
       filter (fun c => negb (is_LOG_ERROR c))
              (new_calls w (dispatch w evt sc'))
    /\ filter is_LOG_ERROR (new_calls w (dispatch w evt SL_STATUS_OK)) = []
    /\ (List.length (filter is_LOG_ERROR (new_calls w (dispatch w evt sc)))
        <= 1)%nat.
Proof.
  intros w evt sc sc'. destruct w as [s b cs].
  destruct b as [op armed inflight onbutton ch sh chh shh chhh shb chb].
  unfold new_calls.
  destruct s; unfold_discovery; rewrite ?Z.eqb_refl; cbn [negb];
    destruct (msg_id_eqb (header evt) _);
    try destruct (negb (sc =? SL_STATUS_OK));
    try destruct (negb (sc' =? SL_STATUS_OK));
    cbv [Discovery.calls Discovery.bleData Discovery.nextState fst snd];
    rewrite <- ?app_assoc;
    rewrite ?skipn_length_app;
    rewrite ?(skipn_all cs);
    repeat split; cbn; lia.
Qed.

Lemma advance_spec_next (n : nat) (s : Discovery_States_t) :
  advance (S n) s = advance n (spec_next s).
Proof. reflexivity. Qed.

Lemma discovery_counts_completions (inputs : list (sl_bt_msg_t * Z)) :
  forall w : world,
    nextState w <> State_1 ->
    (completed_count inputs <= steps_to_idle (nextState w))%nat ->
    Forall (fun i => header (fst i) <> sl_bt_evt_connection_closed_id)
           inputs ->
    nextState (snd (run w inputs)) =
    advance (completed_count inputs) (nextState w).
Proof.
  induction inputs as [|[evt sc] rest IH]; intros w Hstarted Hcount Hopen;
    [reflexivity|].
  inversion Hopen as [|? ? Hevt Hrest]; subst. cbn [fst] in Hevt.
  destruct (discovery_run_cons w evt sc rest) as [_ ->].
  pose proof (discovery_nextState w evt sc) as Hstep.
  unfold completed_count in *. cbn [filter] in *.
  unfold is_procedure_completed at 1. unfold is_procedure_completed at 1 in Hcount.
  cbn [fst] in *.
  destruct (msg_id_eqb (header evt) sl_bt_evt_gatt_procedure_completed_id)
    eqn:Hdone.
  - cbn [List.length] in *. rewrite advance_spec_next.
    apply msg_id_eqb_eq in Hdone.
    assert (Hnext : nextState (dispatch w evt sc) = spec_next (nextState w)).
    { rewrite Hstep, Hdone.
      destruct (nextState w); try reflexivity;
        [exfalso; apply Hstarted; reflexivity | cbn in Hcount; lia]. }
    rewrite <- Hnext. apply IH.
    + rewrite Hnext. destruct (nextState w); try discriminate.
      cbn in Hcount. lia.
    + rewrite Hnext. destruct (nextState w); cbn in *; lia.
    + exact Hrest.
  - assert (Hsame : nextState (dispatch w evt sc) = nextState w).
    { rewrite Hstep.
      destruct (nextState w); cbn [spec_trigger]; rewrite ?Hdone;
        try reflexivity.
      - exfalso. apply Hstarted. reflexivity.
      - replace (msg_id_eqb (header evt) sl_bt_evt_connection_closed_id)
          with false; [reflexivity|].
        symmetry. apply not_true_iff_false. rewrite msg_id_eqb_eq.
        exact Hevt. }
    rewrite <- Hsame. apply IH.
    + rewrite Hsame. exact Hstarted.
    + rewrite Hsame. exact Hcount.
    + exact Hrest.
Qed.

(** X17.  Once discovery has started, progress counts the
    procedure-completed events and nothing else: after any run without a
    connection-closed event and with at most as many procedure-completed
    events as steps are left to state 7, the state is that many steps further
    on, however many other events are mixed in. *)
Theorem discovery_progress_counts_procedure_completions :
  forall (inputs : list (sl_bt_msg_t * Z)) (w : world),
    nextState w <> State_1 ->
    (completed_count inputs <= steps_to_idle (nextState w))%nat ->
    Forall (fun i => header (fst i) <> sl_bt_evt_connection_closed_id)
           inputs ->
    nextState (snd (run w inputs)) =
    advance (completed_count inputs) (nextState w)
    /\ advance (steps_to_idle (nextState w)) (nextState w) = State_7.
Proof.
  intros inputs w Hstarted Hcount Hopen.
  split; [apply discovery_counts_completions; assumption|].
  destruct (nextState w); reflexivity.
Qed.

End DiscoveryExtras.

(** ** Concrete runs for the further properties *)

Section ConcreteExtras.
Import CInt Scheduler Ble Si7021 Acquisition Observe ObservePublication.
#[local] Existing Instance sample_platform.

(** X4 on the sample world: the underflow signal in Idle. *)
Lemma early_transitions_witness :
  let w := sample_world stateIdle (sample_ble true true false) in
  let evt := external_signal 1 in
  let r := sample_returns 27273 0 in
  preconditions evt (bleData w) = true
  /\ nextState w <> waitForI2CReadTransfer
  /\ bleData (dispatch w evt r) = bleData w
  /\ htm_temperature_buffer (dispatch w evt r) = htm_temperature_buffer w
  /\ htm_temperature_flt (dispatch w evt r) = htm_temperature_flt w
  /\ flags (dispatch w evt r) = flags w
  /\ new_calls w (dispatch w evt r) =
     (if bit_is_set (extsignals evt) (spec_trigger (nextState w))
      then transition_calls (nextState w)
      else [])
  /\ filter is_publication (new_calls w (dispatch w evt r)) = [].
Proof.
  cbv zeta.
  assert (Hearly :
    nextState (sample_world stateIdle (sample_ble true true false))
    <> waitForI2CReadTransfer) by discriminate.
  split; [reflexivity|]. split; [exact Hearly|].
  exact (early_transitions_make_the_calls_of_their_row
           (sample_world stateIdle (sample_ble true true false))
           (external_signal 1) (sample_returns 27273 0) eq_refl Hearly).
Defined.


(** X8 on the sample world, at the read-complete transition. *)
Lemma nothing_in_flight_nothing_sent_witness :
  let w := sample_world waitForI2CReadTransfer (sample_ble true true false) in
  let evt := external_signal 4 in
  let r := sample_returns 27273 0 in
  indication_in_flight (bleData w) = false
  /\ filter is_send_indication (new_calls w (dispatch w evt r)) = []
  /\ indication_in_flight (bleData (dispatch w evt r)) = false.
Proof.
  cbv zeta. split; [reflexivity|].
  exact (nothing_in_flight_nothing_sent
           (sample_world waitForI2CReadTransfer (sample_ble true true false))
           (external_signal 4) (sample_returns 27273 0) eq_refl).
Defined.

(** X9 on a run from Idle that stops in AwaitingWriteComplete. *)
Lemma sensor_is_powered_witness :
  let w := sample_world stateIdle (sample_ble true true false) in
  let r := sample_returns 27273 0 in
  let inputs := [(external_signal 1, r); (external_signal 2, r);
                 (external_signal 1, r); (external_signal 4, r)] in
  sensor_after false (calls w) = negb (is_idle (nextState w))
  /\ sensor_after false (calls (snd (run w inputs))) =
     negb (is_idle (nextState (snd (run w inputs)))).
Proof.
  cbv zeta. split; [reflexivity|].
  exact (sensor_is_powered_exactly_outside_idle
           [(external_signal 1, sample_returns 27273 0);
            (external_signal 2, sample_returns 27273 0);
            (external_signal 1, sample_returns 27273 0);
            (external_signal 4, sample_returns 27273 0)]
           (sample_world stateIdle (sample_ble true true false)) eq_refl).
Defined.

(** X10 on the first four dispatches of a cycle. *)
Lemma no_publication_before_the_cycle_witness :
  let w := sample_world stateIdle (sample_ble true true false) in
  let r := sample_returns 27273 0 in
  let inputs := [(external_signal 1, r); (external_signal 2, r);
                 (external_signal 4, r); (external_signal 2, r)] in
  (List.length inputs < steps_to_publish (nextState w))%nat
  /\ filter is_publication (new_calls w (snd (run w inputs))) = [].
Proof.
  cbv zeta.
  assert (Hlen :
    (List.length
       [(external_signal 1, sample_returns 27273 0);
        (external_signal 2, sample_returns 27273 0);
        (external_signal 4, sample_returns 27273 0);
        (external_signal 2, sample_returns 27273 0)]
     < steps_to_publish
         (nextState (sample_world stateIdle (sample_ble true true false))))%nat)
    by (cbn; lia).
  split; [exact Hlen|].
  exact (no_publication_before_the_cycle_is_through _ _ Hlen).
Defined.

(** X11 for the compare-match setter in AwaitingPowerOnReset. *)
Lemma posted_signal_witness :
  let w := sample_world waitForSi7021POR (sample_ble true true false) in
  let s := mkSched 0 [] in
  let r := sample_returns 27273 0 in
  bit_of EVENT_LETIMER_COMP1 = Some 1
  /\ connection_open (bleData w) = true
  /\ ok_to_send_htm_indications (bleData w) = true
  /\ raised (setter_of EVENT_LETIMER_COMP1 s) =
     raised s ++ [sl_bt_external_signal (Z.shiftl 1 1)]
  /\ nextState (dispatch w (external_signal (Z.shiftl 1 1)) r) =
     (if spec_trigger (nextState w) =? 1
      then spec_next (nextState w)
      else nextState w).
Proof.
  cbv zeta.
  split; [reflexivity|]. split; [reflexivity|]. split; [reflexivity|].
  exact (posted_signal_moves_the_machine_in_its_states_only
           EVENT_LETIMER_COMP1 1 (mkSched 0 [])
           (sample_world waitForSi7021POR (sample_ble true true false))
           (sample_returns 27273 0) eq_refl eq_refl eq_refl).
Defined.

(** X13 at the codes 27273 and 30000. *)
Lemma reading_is_monotone_witness :
  17474 <= 27273
  /\ 27273 <= 30000
  /\ 30000 < 65536
  /\ temperature_reading_of 27273 <= temperature_reading_of 30000
  /\ (inject_Z (temperature_reading_of 27273) <= spec_formula 27273)%Q
  /\ (spec_formula 27273 < inject_Z (temperature_reading_of 27273 + 1))%Q.
Proof.
  assert (H1 : 17474 <= 27273) by lia.
  assert (H2 : 27273 <= 30000) by lia.
  assert (H3 : 30000 < 65536) by lia.
  split; [exact H1|]. split; [exact H2|]. split; [exact H3|].
  exact (reading_is_monotone_and_within_one_degree 27273 30000 H1 H2 H3).
Defined.

End ConcreteExtras.

Section ConcreteDiscoveryExtras.
Import Ble Discovery ObserveDiscovery.
#[local] Existing Instance sample_platform.

(** X17 from state 3, with two completions among other events. *)
Lemma discovery_progress_witness :
  let w := Discovery.mkWorld State_3 (sample_ble true true false) [] in
  let inputs :=
    [(mkMsg sl_bt_evt_gatt_procedure_completed_id 0, 0);
     (mkMsg sl_bt_evt_connection_opened_id 0, 0);
     (mkMsg sl_bt_evt_gatt_procedure_completed_id 0, 1);
     (mkMsg (sl_bt_evt_other_id 7) 0, 0)] in
  nextState w <> State_1
  /\ (completed_count inputs <= steps_to_idle (nextState w))%nat
  /\ Forall (fun i => header (fst i) <> sl_bt_evt_connection_closed_id) inputs
  /\ nextState (snd (run w inputs)) =
     advance (completed_count inputs) (nextState w)
  /\ advance (steps_to_idle (nextState w)) (nextState w) = State_7.
Proof.
  cbv zeta.
  assert (Hstarted :
    nextState (Discovery.mkWorld State_3 (sample_ble true true false) [])
    <> State_1) by discriminate.
  assert (Hcount :
    Nat.le
      (completed_count
         [(mkMsg sl_bt_evt_gatt_procedure_completed_id 0, 0);
          (mkMsg sl_bt_evt_connection_opened_id 0, 0);
          (mkMsg sl_bt_evt_gatt_procedure_completed_id 0, 1);
          (mkMsg (sl_bt_evt_other_id 7) 0, 0)])
      (steps_to_idle
         (nextState
            (Discovery.mkWorld State_3 (sample_ble true true false) []))))
    by (cbn; unfold Nat.le; lia).
  assert (Hopen :
    Forall (fun i => header (fst i) <> sl_bt_evt_connection_closed_id)
      [(mkMsg sl_bt_evt_gatt_procedure_completed_id 0, 0);
       (mkMsg sl_bt_evt_connection_opened_id 0, 0);
       (mkMsg sl_bt_evt_gatt_procedure_completed_id 0, 1);
       (mkMsg (sl_bt_evt_other_id 7) 0, 0)])
    by (repeat constructor; discriminate).
  split; [exact Hstarted|]. split; [exact Hcount|]. split; [exact Hopen|].
  exact (discovery_progress_counts_procedure_completions _ _
           Hstarted Hcount Hopen).
Defined.

End ConcreteDiscoveryExtras.
